(** * Gas price oracle: epoch bookkeeping, update loop and configuration

    A shallow embedding of the Go sources
      - l2geth/rollup/gas_price_updater.go        (GasPriceUpdater)
      - go/gas-oracle/oracle/gas_price_oracle.go  (GasPriceOracle: Start, Loop)
      - go/gas-oracle/oracle/config.go            (NewConfig)
      - go/gas-oracle/flags                       (flag names)
      - go/gas-oracle/oracle, test file           (TestIsDifferenceSignificant)
    together with the properties stated about them.

    Conventions.  A [uint64] is a [Z] with the wrap-around modulo [2^64]
    written out; a [float64] is an IEEE 754 binary64 value, represented by
    [spec_float] at precision 53 and maximal exponent 1024; a Go [error] is
    its message; a runtime panic and a process exit ([log.Crit]) are
    explicit outcomes of a computation. *)

From Stdlib Require Import ZArith QArith Qminmax Bool List String Lia.
From Stdlib Require Import Floats.SpecFloat.
Import ListNotations.

Local Open Scope string_scope.
Local Open Scope Z_scope.

(** * Part I: the program *)

(** ** Machine integers *)

Module Uint64.

Definition modulus : Z := 2 ^ 64.

Definition in_range (x : Z) : Prop := 0 <= x < modulus.

Definition wrap (x : Z) : Z := x mod modulus.

(** [a - b] and [a * b] on uint64 wrap around silently. *)
Definition sub (a b : Z) : Z := wrap (a - b).

Definition mul (a b : Z) : Z := wrap (a * b).

(** [a / b] on uint64 truncates; a zero divisor is a runtime panic,
    rendered as [None]. *)
Definition div (a b : Z) : option Z :=
  if b =? 0 then None else Some (a / b).

End Uint64.

(** ** IEEE 754 binary64 *)

Module Float64.

Definition prec : Z := 53.

Definition emax : Z := 1024.

Definition float64 : Type := spec_float.

(** The conversion [float64(n)] of an unsigned integer: round to nearest,
    ties to even. *)
Definition of_uint64 (n : Z) : float64 := binary_normalize prec emax n 0 false.

Definition zero : float64 := S754_zero false.

Definition sub : float64 -> float64 -> float64 := SFsub prec emax.

Definition div : float64 -> float64 -> float64 := SFdiv prec emax.



Definition leb : float64 -> float64 -> bool := SFleb.

(** The decimal literal [n / 10^k], correctly rounded: [n] and [10^k] are
    exact in binary64 wherever this is used, and IEEE division rounds the
    exact quotient once. *)
Definition decimal (n : Z) (k : Z) : float64 :=
  div (of_uint64 n) (of_uint64 (10 ^ k)).

(** The rational number a finite [float64] denotes; infinities and NaN
    denote none. *)
Definition to_Q (x : float64) : option Q :=
  match x with
  | S754_zero _ => Some 0%Q
  | S754_finite s m e =>
      let z := if s then Z.neg m else Z.pos m in
      Some (match e with
            | Z0 => inject_Z z
            | Zpos p => inject_Z (z * 2 ^ Zpos p)
            | Zneg p => Qmake z (2 ^ p)%positive
            end)
  | S754_infinity _ | S754_nan => None
  end.

End Float64.

Definition float64 : Type := Float64.float64.

(** ** Go values and effects *)

Definition error : Type := string.

Inductive result (A : Type) : Type :=
| Ok (a : A)
| Err (err : error).

Arguments Ok {A} a.
Arguments Err {A} err.

Inductive Lvl : Type := LvlCrit | LvlError | LvlInfo | LvlDebug.

(** A log record: level, message and the string-valued items of its
    key/value context (numeric items are left out). *)
Record LogRecord : Type := {
  lvl : Lvl;
  msg : string;
  ctx : list string
}.

Section Effects.

Context {W : Type}.

(** What a running process can touch: the outside world [W] (the chain
    behind the RPC client) and the log it has written. *)
Record St : Type := {
  world : W;
  logs : list LogRecord
}.

(** A computation either yields a value, or ends the process
    ([log.Crit] calls [os.Exit]), or panics. *)
Inductive Exec (A : Type) : Type :=
| Value (a : A) (s : St)
| Exited (s : St)
| Panicked (s : St).

Definition M (A : Type) : Type := St -> Exec A.

Definition ret {A : Type} (a : A) : M A := fun s => Value A a s.

Definition bind {A B : Type} (m : M A) (k : A -> M B) : M B :=
  fun s =>
    match m s with
    | Value _ a s' => k a s'
    | Exited _ s' => Exited B s'
    | Panicked _ s' => Panicked B s'
    end.

Definition write_log (l : Lvl) (m : string) (c : list string) (s : St) : St :=
  {| world := world s;
     logs := logs s ++ [{| lvl := l; msg := m; ctx := c |}] |}.

Definition log_Debug (m : string) (c : list string) : M unit :=
  fun s => Value unit tt (write_log LvlDebug m c s).

Definition log_Info (m : string) (c : list string) : M unit :=
  fun s => Value unit tt (write_log LvlInfo m c s).

Definition log_Error (m : string) (c : list string) : M unit :=
  fun s => Value unit tt (write_log LvlError m c s).

(** [log.Crit] writes the record and exits the process. *)
Definition log_Crit {A : Type} (m : string) (c : list string) : M A :=
  fun s => Exited A (write_log LvlCrit m c s).

Definition panic {A : Type} : M A := fun s => Panicked A s.

End Effects.

Arguments St W : clear implicits.
Arguments Exec W A : clear implicits.
Arguments M W A : clear implicits.
Arguments Value {W A} a s.
Arguments Exited {W A} s.
Arguments Panicked {W A} s.

Declare Scope go_scope.
Delimit Scope go_scope with go.

Notation "x <- c1 ;; c2" := (bind c1 (fun x => c2))
  (at level 61, c1 at next level, right associativity) : go_scope.
Notation "c1 ;;; c2" := (bind c1 (fun _ => c2))
  (at level 61, right associativity) : go_scope.

Local Open Scope go_scope.

(** ** l2geth/rollup/gas_price_updater.go *)

Module rollup.

(** [GetAverageGasPerSecond]: the whole expression is evaluated on uint64
    and only the quotient is converted.  [None] is the divide-by-zero
    panic. *)
Definition GetAverageGasPerSecond
  (epochStartBlockNumber latestBlockNumber
   epochLengthSeconds averageBlockGasLimit : Z) : option float64 :=
  match Uint64.div
          (Uint64.mul (Uint64.sub latestBlockNumber epochStartBlockNumber)
                      averageBlockGasLimit)
          epochLengthSeconds with
  | Some q => Some (Float64.of_uint64 q)
  | None => None
  end.

(** The [GasPricer] type and its method [CompleteEpoch] are declared in a
    file that is not among the sources; the updater uses them through this
    interface.  [CompleteEpoch] has a pointer receiver: it hands back the
    pricer as it left it.  [curPrice] is a [float64] field in Go; the updater
    only forwards it to [updateL2GasPriceFn], so its type is left to the
    pricer. *)
Class GasPricerOps (GasPricer price : Type) : Type := {
  curPrice : GasPricer -> price;
  CompleteEpoch : GasPricer -> float64 -> GasPricer * result price
}.

Section Updater.

Context {W GasPricer price : Type} {ops : GasPricerOps GasPricer price}.

Definition GetLatestBlockNumberFn : Type := M W (result Z).

Definition UpdateL2GasPriceFn : Type := price -> M W (option error).

Record GasPriceUpdater : Type := {
  gasPricer : GasPricer;
  epochStartBlockNumber : Z;
  averageBlockGasLimit : Z;
  epochLengthSeconds : Z;
  getLatestBlockNumberFn : GetLatestBlockNumberFn;
  updateL2GasPriceFn : UpdateL2GasPriceFn
}.

Definition set_gasPricer (g : GasPriceUpdater) (p : GasPricer) : GasPriceUpdater :=
  {| gasPricer := p;
     epochStartBlockNumber := epochStartBlockNumber g;
     averageBlockGasLimit := averageBlockGasLimit g;
     epochLengthSeconds := epochLengthSeconds g;
     getLatestBlockNumberFn := getLatestBlockNumberFn g;
     updateL2GasPriceFn := updateL2GasPriceFn g |}.

Definition set_epochStartBlockNumber (g : GasPriceUpdater) (n : Z) : GasPriceUpdater :=
  {| gasPricer := gasPricer g;
     epochStartBlockNumber := n;
     averageBlockGasLimit := averageBlockGasLimit g;
     epochLengthSeconds := epochLengthSeconds g;
     getLatestBlockNumberFn := getLatestBlockNumberFn g;
     updateL2GasPriceFn := updateL2GasPriceFn g |}.

(** [NewGasPriceUpdater].  [gasPricer] is a pointer, [None] for [nil]; the
    composite literal dereferences it, after the three checks, and the
    dereference of [nil] is a runtime panic, rendered as the outer [None]. *)
Definition NewGasPriceUpdater
  (gasPricer : option GasPricer)
  (epochStartBlockNumber averageBlockGasLimit epochLengthSeconds : Z)
  (getLatestBlockNumberFn : GetLatestBlockNumberFn)
  (updateL2GasPriceFn : UpdateL2GasPriceFn) : option (result GasPriceUpdater) :=
  if epochStartBlockNumber <? 0 then
    Some (Err "epochStartBlockNumber must be non-negative.")
  else if averageBlockGasLimit <? 1 then
    Some (Err "averageBlockGasLimit cannot be less than 1 gas.")
  else if epochLengthSeconds <? 1 then
    Some (Err "epochLengthSeconds cannot be less than 1 second.")
  else
    match gasPricer with
    | None => None
    | Some pricer =>
        Some (Ok {| gasPricer := pricer;
                    epochStartBlockNumber := epochStartBlockNumber;
                    epochLengthSeconds := epochLengthSeconds;
                    averageBlockGasLimit := averageBlockGasLimit;
                    getLatestBlockNumberFn := getLatestBlockNumberFn;
                    updateL2GasPriceFn := updateL2GasPriceFn |})
    end.

(** [UpdateGasPrice] has a pointer receiver: the updater as the call left
    it is returned next to the Go return value ([None] is [nil]). *)
Definition UpdateGasPrice (g : GasPriceUpdater)
  : M W (GasPriceUpdater * option error) :=
  r <- getLatestBlockNumberFn g ;;
  match r with
  | Err err => ret (g, Some err)
  | Ok latestBlockNumber =>
      if latestBlockNumber <? epochStartBlockNumber g then
        ret (g, Some "Latest block number less than the last epoch's block number.")
      else
        match GetAverageGasPerSecond (epochStartBlockNumber g)
                latestBlockNumber (epochLengthSeconds g)
                (averageBlockGasLimit g) with
        | None => panic
        | Some averageGasPerSecond =>
            let (p, r) := CompleteEpoch (gasPricer g) averageGasPerSecond in
            let g := set_gasPricer g p in
            match r with
            | Err err => ret (g, Some err)
            | Ok _ =>
                let g := set_epochStartBlockNumber g latestBlockNumber in
                e <- updateL2GasPriceFn g (curPrice (gasPricer g)) ;;
                match e with
                | Some err => ret (g, Some err)
                | None => ret (g, None)
                end
            end
        end
  end.

(** One call of [UpdateGasPrice] that came back, with or without an
    error, as a step from the updater before to the updater after.  The
    world the call finds is any: between two calls the chain moves on. *)
Definition update_step (before after : GasPriceUpdater) : Prop :=
  exists (s s' : St W) (e : option error),
    UpdateGasPrice before s = Value (after, e) s'.

(** Any number of successive calls on the same updater. *)
Inductive update_calls : GasPriceUpdater -> GasPriceUpdater -> Prop :=
| calls_none : forall g, update_calls g g
| calls_more : forall g g' g'',
    update_calls g g' -> update_step g' g'' -> update_calls g g''.

End Updater.

Arguments GasPriceUpdater W GasPricer price : clear implicits.
Arguments GetLatestBlockNumberFn W : clear implicits.
Arguments UpdateL2GasPriceFn W price : clear implicits.

End rollup.

(** ** The Pricer *)

Module Pricer.

(** Modelled from the spec: the two failures of [CompleteEpoch] (4.1, steps
    1 and 2), absent from the sources like the Pricer itself. *)
Definition InvalidInput : error := "InvalidInput".

Definition InvalidConfiguration : error := "InvalidConfiguration".

(** Modelled from the spec: the Pricer's state (type [GasPricer]) is
    declared in a file that is not among the sources.  The spec (3, 4.1)
    gives it a current price, a floor price, a polled target-rate accessor
    and the bound on the change per epoch, all real-valued; they are exact
    rationals here. *)
Record GasPricer : Type := {
  curPrice : Q;
  floorPrice : Q;
  targetRateFn : unit -> Q;
  maxPercentChangePerEpoch : Q
}.

(** Modelled from the spec: the constructor [NewPricer] (4.1), absent from
    the sources. *)
Definition NewPricer (initialPrice floorPrice : Q) (targetRateFn : unit -> Q)
  (maxPercentChangePerEpoch : Q) : GasPricer :=
  {| curPrice := initialPrice;
     floorPrice := floorPrice;
     targetRateFn := targetRateFn;
     maxPercentChangePerEpoch := maxPercentChangePerEpoch |}.

(** Modelled from the spec: step 3 of [CompleteEpoch], clamping to
    [[lo, hi]]. *)
Definition clamp (lo hi x : Q) : Q := Qmin (Qmax x lo) hi.

(** Modelled from the spec: [CompleteEpoch] (4.1, steps 1 to 6), absent
    from the sources.  The observed rate arrives as a [float64]; a finite
    one is taken at its exact value and the arithmetic of steps 2 to 5 is
    exact, as the spec words it over the reals.  A failed call leaves the
    state as it was. *)
Definition CompleteEpoch (p : GasPricer) (observedGasPerSecond : float64)
  : GasPricer * result Q :=
  match Float64.to_Q observedGasPerSecond with
  | None => (p, Err InvalidInput)
  | Some observed =>
      if negb (Qle_bool 0 observed) then (p, Err InvalidInput)
      else
        let target := targetRateFn p tt in
        if Qle_bool target 0 then (p, Err InvalidConfiguration)
        else
          let ratio := (observed / target)%Q in
          let clamped :=
            clamp (1 - maxPercentChangePerEpoch p)%Q
                  (1 + maxPercentChangePerEpoch p)%Q ratio in
          let candidate := (curPrice p * clamped)%Q in
          let newPrice := Qmax candidate (floorPrice p) in
          ({| curPrice := newPrice;
              floorPrice := floorPrice p;
              targetRateFn := targetRateFn p;
              maxPercentChangePerEpoch := maxPercentChangePerEpoch p |},
           Ok newPrice)
  end.

End Pricer.

(** The spec's Pricer behind the interface the updater calls it through. *)
#[global] Instance Pricer_ops : rollup.GasPricerOps Pricer.GasPricer Q := {|
  rollup.curPrice := Pricer.curPrice;
  rollup.CompleteEpoch := Pricer.CompleteEpoch
|}.

(** ** The significance gate and its test *)

Module Gate.






End Gate.

(** ** Package time, as far as [Loop] uses it *)

Module time.

(** A [Duration] is an int64 count of nanoseconds. *)
Definition Second : Z := 1000000000.

(** Arithmetic on int64 wraps around silently. *)
Definition int64_wrap (x : Z) : Z := (x + 2 ^ 63) mod 2 ^ 64 - 2 ^ 63.

(** The conversion [time.Duration(x)] of a [float64]: the fraction is
    discarded, towards zero.  For a value that int64 cannot hold (too large,
    an infinity, NaN) Go leaves the result to the implementation:
    [unrepresentable] says what it is. *)
Definition Duration (unrepresentable : float64 -> Z) (x : float64) : Z :=
  match Float64.to_Q x with
  | Some q =>
      let t := Z.quot (Qnum q) (Z.pos (Qden q)) in
      if (- 2 ^ 63 <=? t) && (t <? 2 ^ 63) then t else unrepresentable x
  | None => unrepresentable x
  end.

(** [time.NewTicker] panics on a duration that is not positive. *)
Definition NewTicker {W : Type} (d : Z) : M W unit :=
  if d <=? 0 then panic else ret tt.

End time.

(** ** go/gas-oracle/flags *)

Module flags.

(** A command-line flag; only its name is consulted by [NewConfig]. *)
Record Flag : Type := { Name : string }.

Definition EthereumHttpUrlFlag : Flag := {| Name := "ethereum-http-url" |}.

Definition ChainIDFlag : Flag := {| Name := "chain-id" |}.

Definition GasPriceOracleAddressFlag : Flag := {| Name := "gas-price-oracle-address" |}.

Definition PrivateKeyFlag : Flag := {| Name := "private-key" |}.

Definition TransactionGasPriceFlag : Flag := {| Name := "transaction-gas-price" |}.

Definition FloorPriceFlag : Flag := {| Name := "floor-price" |}.

Definition TargetGasPerSecondFlag : Flag := {| Name := "target-gas-per-second" |}.

Definition MaxPercentChangePerEpochFlag : Flag := {| Name := "max-percent-change-per-epoch" |}.

Definition AverageBlockGasLimitPerEpochFlag : Flag :=
  {| Name := "average-block-gas-limit-per-epoch" |}.

Definition EpochLengthSecondsFlag : Flag := {| Name := "epoch-length-seconds" |}.

Definition SignificantFactorFlag : Flag := {| Name := "significant-factor" |}.

End flags.

(** ** go/gas-oracle/oracle *)

Module oracle.

(** A [common.Address]: the 160-bit number its 20 bytes spell. *)
Definition Address : Type := Z.

(** What the package takes from go-ethereum's [crypto] and [common]. *)
Class Crypto (PrivateKey : Type) : Type := {
  PubkeyToAddress : PrivateKey -> Address;
  HexToECDSA : string -> result PrivateKey;
  HexToAddress : string -> Address
}.

(** The part of a [cli.Context] that [NewConfig] reads. *)
Record Context : Type := {
  GlobalIsSet : string -> bool;
  GlobalString : string -> string;
  GlobalUint64 : string -> Z;
  GlobalFloat64 : string -> float64
}.

Definition errInvalidSigningKey : error := "invalid signing key".

Definition errNoChainID : error := "no chain id provided".

Definition errNoPrivateKey : error := "no private key provided".

Section Config.

Context {W PrivateKey : Type} {crypto : Crypto PrivateKey}.

(** The pointer fields ([*big.Int], [*ecdsa.PrivateKey]) are options,
    [None] for [nil]. *)
Record Config : Type := {
  chainID : option Z;
  ethereumHttpUrl : string;
  gasPriceOracleAddress : Address;
  privateKey : option PrivateKey;
  gasPrice : option Z;
  floorPrice : float64;
  targetGasPerSecond : float64;
  maxPercentChangePerEpoch : float64;
  averageBlockGasLimitPerEpoch : float64;
  epochLengthSeconds : float64;
  significantFactor : float64
}.

(** [NewConfig].  Each [if ctx.GlobalIsSet(...)] block of the source is one
    binding here, in the source's order; a field no block assigns keeps the
    value of the composite literal or its zero value. *)
Definition NewConfig (ctx : Context) : M W Config :=
  let ethereumHttpUrl :=
    if GlobalIsSet ctx (flags.Name flags.EthereumHttpUrlFlag)
    then GlobalString ctx (flags.Name flags.EthereumHttpUrlFlag)
    else "" in
  let chainID :=
    if GlobalIsSet ctx (flags.Name flags.ChainIDFlag)
    then Some (GlobalUint64 ctx (flags.Name flags.ChainIDFlag))
    else None in
  let gasPriceOracleAddress :=
    if GlobalIsSet ctx (flags.Name flags.GasPriceOracleAddressFlag)
    then HexToAddress (GlobalString ctx (flags.Name flags.GasPriceOracleAddressFlag))
    else HexToAddress "0x420000000000000000000000000000000000000F" in
  privateKey <-
    (if GlobalIsSet ctx (flags.Name flags.PrivateKeyFlag) then
       let hex := GlobalString ctx (flags.Name flags.PrivateKeyFlag) in
       let hex :=
         if String.prefix "0x" hex
         then String.substring 2 (String.length hex - 2) hex
         else hex in
       match HexToECDSA hex with
       | Err err =>
           log_Error "Option %q: %v" [flags.Name flags.PrivateKeyFlag; err] ;;;
           ret None
       | Ok key => ret (Some key)
       end
     else ret None) ;;
  let gasPrice :=
    if GlobalIsSet ctx (flags.Name flags.TransactionGasPriceFlag)
    then Some (GlobalUint64 ctx (flags.Name flags.TransactionGasPriceFlag))
    else None in
  let floorPrice :=
    if GlobalIsSet ctx (flags.Name flags.FloorPriceFlag)
    then GlobalFloat64 ctx (flags.Name flags.FloorPriceFlag)
    else Float64.zero in
  targetGasPerSecond <-
    (if GlobalIsSet ctx (flags.Name flags.TargetGasPerSecondFlag)
     then ret (GlobalFloat64 ctx (flags.Name flags.TargetGasPerSecondFlag))
     else log_Crit "Missing config option"
                   [flags.Name flags.TargetGasPerSecondFlag]) ;;
  maxPercentChangePerEpoch <-
    (if GlobalIsSet ctx (flags.Name flags.MaxPercentChangePerEpochFlag)
     then ret (GlobalFloat64 ctx (flags.Name flags.MaxPercentChangePerEpochFlag))
     else log_Crit "Missing config option"
                   [flags.Name flags.MaxPercentChangePerEpochFlag]) ;;
  averageBlockGasLimitPerEpoch <-
    (if GlobalIsSet ctx (flags.Name flags.AverageBlockGasLimitPerEpochFlag)
     then ret (GlobalFloat64 ctx (flags.Name flags.AverageBlockGasLimitPerEpochFlag))
     else log_Crit "Missing config option"
                   [flags.Name flags.AverageBlockGasLimitPerEpochFlag]) ;;
  epochLengthSeconds <-
    (if GlobalIsSet ctx (flags.Name flags.EpochLengthSecondsFlag)
     then ret (GlobalFloat64 ctx (flags.Name flags.EpochLengthSecondsFlag))
     else log_Crit "Missing config option"
                   [flags.Name flags.EpochLengthSecondsFlag]) ;;
  let significantFactor :=
    if GlobalIsSet ctx (flags.Name flags.SignificantFactorFlag)
    then GlobalFloat64 ctx (flags.Name flags.SignificantFactorFlag)
    else Float64.decimal 5 2 in
  ret {| chainID := chainID;
         ethereumHttpUrl := ethereumHttpUrl;
         gasPriceOracleAddress := gasPriceOracleAddress;
         privateKey := privateKey;
         gasPrice := gasPrice;
         floorPrice := floorPrice;
         targetGasPerSecond := targetGasPerSecond;
         maxPercentChangePerEpoch := maxPercentChangePerEpoch;
         averageBlockGasLimitPerEpoch := averageBlockGasLimitPerEpoch;
         epochLengthSeconds := epochLengthSeconds;
         significantFactor := significantFactor |}.

End Config.

Arguments Config PrivateKey : clear implicits.

(** The bound contract ([bindings.GasPriceOracle]): its two read calls. *)
Record GasPriceOracleCaller (W : Type) : Type := {
  Owner : M W (result Address);
  GasPrice : M W (result Z)
}.

Arguments Owner {W} _.
Arguments GasPrice {W} _.

(** The backend ([DeployContractBackend]): the number of the tip header. *)
Record Backend (W : Type) : Type := {
  HeaderByNumber : M W (result Z)
}.

Arguments HeaderByNumber {W} _.

(** What [Loop] calls that is declared in files that are not among the
    sources: the two wrappers, and the constructor of package [gasprices],
    whose arguments are [float64] and which returns no error.  The updater
    it builds is taken to be the one of l2geth/rollup.  With them, what the
    platform makes of a [float64] that int64 cannot hold. *)
Class LoopDeps (W GasPricer price PrivateKey : Type) : Type := {
  wrapGetLatestBlockNumberFn : Backend W -> rollup.GetLatestBlockNumberFn W;
  wrapUpdateL2GasPriceFn :
    Backend W -> Config PrivateKey -> result (rollup.UpdateL2GasPriceFn W price);
  gasprices_NewGasPriceUpdater :
    GasPricer -> float64 -> float64 -> float64 ->
    rollup.GetLatestBlockNumberFn W -> rollup.UpdateL2GasPriceFn W price ->
    rollup.GasPriceUpdater W GasPricer price;
  int64_of_unrepresentable : float64 -> Z
}.

Section Oracle.

Context {W GasPricer price PrivateKey : Type}.
Context {ops : rollup.GasPricerOps GasPricer price}.
Context {crypto : Crypto PrivateKey}.
Context {deps : LoopDeps W GasPricer price PrivateKey}.

(** [stop] is the channel that [Stop] closes: [true] once closed.  The
    [ctx] field is the source of the [CtxDone] event below. *)
Record GasPriceOracle : Type := {
  oracle_chainID : option Z;
  stop : bool;
  contract : GasPriceOracleCaller W;
  backend : Backend W;
  gasPricer : GasPricer;
  config : Config PrivateKey
}.

(** [Start].  Next to the error it returns ([None] is [nil]), whether the
    [go g.Loop()] statement was reached. *)
Definition Start (g : GasPriceOracle) : M W (option error * bool) :=
  match chainID (config g) with
  | None => ret (Some errNoChainID, false)
  | Some _ =>
      match privateKey (config g) with
      | None => ret (Some errNoPrivateKey, false)
      | Some key =>
          let address := PubkeyToAddress key in
          log_Info "Starting Gas Price Oracle" [] ;;;
          r <- Owner (contract g) ;;
          match r with
          | Err err => ret (Some err, false)
          | Ok owner =>
              if negb (address =? owner) then
                log_Error "Signing key does not match contract owner" [] ;;;
                ret (Some errInvalidSigningKey, false)
              else
                ret (None, true)
          end
      end
  end.

(** [Stop]: closing a closed channel panics. *)
Definition Stop (g : GasPriceOracle) : M W GasPriceOracle :=
  if stop g then panic
  else ret {| oracle_chainID := oracle_chainID g;
              stop := true;
              contract := contract g;
              backend := backend g;
              gasPricer := gasPricer g;
              config := config g |}.

(** What the [select] of [Loop] can receive. *)
Inductive Event : Type := TimerTick | CtxDone.

Definition LoopState : Type :=
  (GasPriceOracle * rollup.GasPriceUpdater W GasPricer price)%type.

(** One iteration of the [for] of [Loop], on the event its [select]
    received.  Every branch ends the iteration and goes round again, unless
    the process exited or panicked. *)
Definition Loop_iteration (ev : Event) (l : LoopState) : M W LoopState :=
  let (g, gasPriceUpdater) := l in
  match ev with
  | TimerTick =>
      log_Debug "polling" [] ;;;
      r <- GasPrice (contract g) ;;
      match r with
      | Err err =>
          log_Error "cannot get gas price" [err] ;;;
          ret (g, gasPriceUpdater)
      | Ok l2GasPrice =>
          x <- rollup.UpdateGasPrice gasPriceUpdater ;;
          let (gasPriceUpdater, e) := x in
          match e with
          | Some err =>
              log_Error "cannot update gas price" [err] ;;;
              ret (g, gasPriceUpdater)
          | None =>
              log_Info "Updated gas price" [] ;;;
              ret (g, gasPriceUpdater)
          end
      end
  | CtxDone =>
      g <- Stop g ;;
      ret (g, gasPriceUpdater)
  end.

(** The [for] of [Loop] over the events that arrive; it has no exit of its
    own, so a value here is the state in which it waits for the next
    event. *)
Fixpoint Loop_for (events : list Event) (l : LoopState) : M W LoopState :=
  match events with
  | [] => ret l
  | ev :: events =>
      l <- Loop_iteration ev l ;;
      Loop_for events l
  end.

(** The duration [time.Duration(g.config.epochLengthSeconds) * time.Second]
    of the ticker of [Loop]. *)
Definition ticker_period (g : GasPriceOracle) : Z :=
  time.int64_wrap
    (time.Duration int64_of_unrepresentable (epochLengthSeconds (config g))
     * time.Second).

(** [Loop]: the set-up, the ticker, then the [for].  [tip.Number.Uint64()]
    is the low 64 bits of the number of the tip. *)
Definition Loop (g : GasPriceOracle) (events : list Event) : M W LoopState :=
  r <- HeaderByNumber (backend g) ;;
  match r with
  | Err err => log_Crit "Cannot fetch tip" [err]
  | Ok tip =>
      let epochStartBlockNumber := Float64.of_uint64 (Uint64.wrap tip) in
      let getLatestBlockNumberFn := wrapGetLatestBlockNumberFn (backend g) in
      match wrapUpdateL2GasPriceFn (backend g) (config g) with
      | Err err => log_Crit "error" [err]
      | Ok updateL2GasPriceFn =>
          let gasPriceUpdater :=
            gasprices_NewGasPriceUpdater (gasPricer g) epochStartBlockNumber
              (averageBlockGasLimitPerEpoch (config g))
              (epochLengthSeconds (config g))
              getLatestBlockNumberFn updateL2GasPriceFn in
          time.NewTicker (ticker_period g) ;;;
          Loop_for events (g, gasPriceUpdater)
      end
  end.

End Oracle.

Arguments GasPriceOracle W GasPricer PrivateKey : clear implicits.

End oracle.

(** ** A scripted chain

    A small world for the examples: the chain answers each height query
    with the next entry of a list (with an error once the list is used up),
    answers the two contract reads as two fields say, and accepts or refuses
    price writes as a flag says. *)

Module Script.

Record Chain : Type := {
  heights : list Z;
  owner : result oracle.Address;
  onchain : result Z;
  refuse : bool;
  written : list Q
}.

Definition getLatest : rollup.GetLatestBlockNumberFn Chain :=
  fun s =>
    match heights (world s) with
    | [] => Value (Err "no header") s
    | h :: rest =>
        Value (Ok h)
          {| world := {| heights := rest;
                         owner := owner (world s);
                         onchain := onchain (world s);
                         refuse := refuse (world s);
                         written := written (world s) |};
             logs := logs s |}
    end.

Definition update : rollup.UpdateL2GasPriceFn Chain Q :=
  fun p s =>
    if refuse (world s) then Value (Some "write refused") s
    else
      Value None
        {| world := {| heights := heights (world s);
                       owner := owner (world s);
                       onchain := onchain (world s);
                       refuse := refuse (world s);
                       written := written (world s) ++ [p] |};
           logs := logs s |}.

Definition caller : oracle.GasPriceOracleCaller Chain :=
  {| oracle.Owner := fun s => Value (owner (world s)) s;
     oracle.GasPrice := fun s => Value (onchain (world s)) s |}.

Definition node : oracle.Backend Chain :=
  {| oracle.HeaderByNumber := getLatest |}.

(** Keys are numbers, the address of key [k] is [k + 1000]; any non-empty
    string parses as a key. *)
#[global] Instance crypto : oracle.Crypto Z := {|
  oracle.PubkeyToAddress := fun k => k + 1000;
  oracle.HexToECDSA := fun h =>
    match h with
    | EmptyString => Err "invalid length"
    | _ => Ok (Z.of_nat (String.length h))
    end;
  oracle.HexToAddress := fun h => Z.of_nat (String.length h)
|}.

Definition start (chain : Chain) : St Chain := {| world := chain; logs := [] |}.

(** A chain at the given heights whose contract is owned by [1007] and
    holds the price [10]. *)
Definition chain_at (hs : list Z) (refuse : bool) : Chain :=
  {| heights := hs; owner := Ok 1007; onchain := Ok 10;
     refuse := refuse; written := [] |}.

(** An updater at checkpoint [5], with 11000000 gas per block and epochs of
    10 seconds, over the spec's Pricer at price 10, floor 1, at most 10
    percent change per epoch, and the given target. *)
Definition updater (target : Q) : rollup.GasPriceUpdater Chain Pricer.GasPricer Q :=
  {| rollup.gasPricer := Pricer.NewPricer 10 1 (fun _ => target) (1 # 10);
     rollup.epochStartBlockNumber := 5;
     rollup.averageBlockGasLimit := 11000000;
     rollup.epochLengthSeconds := 10;
     rollup.getLatestBlockNumberFn := getLatest;
     rollup.updateL2GasPriceFn := update |}.

(** A command line that sets exactly the flags whose names are listed. *)
Definition command_line (set : list string) : oracle.Context :=
  {| oracle.GlobalIsSet := fun n => existsb (String.eqb n) set;
     oracle.GlobalString := fun _ => "0xabc";
     oracle.GlobalUint64 := fun _ => 420;
     oracle.GlobalFloat64 := fun _ => Float64.of_uint64 7 |}.

Definition config (chainID : option Z) (key : option Z) : oracle.Config Z :=
  {| oracle.chainID := chainID;
     oracle.ethereumHttpUrl := "http://127.0.0.1:8545";
     oracle.gasPriceOracleAddress := 15;
     oracle.privateKey := key;
     oracle.gasPrice := None;
     oracle.floorPrice := Float64.of_uint64 1;
     oracle.targetGasPerSecond := Float64.of_uint64 100;
     oracle.maxPercentChangePerEpoch := Float64.decimal 1 1;
     oracle.averageBlockGasLimitPerEpoch := Float64.of_uint64 11000000;
     oracle.epochLengthSeconds := Float64.of_uint64 10;
     oracle.significantFactor := Float64.decimal 5 2 |}.

Definition gpo (chainID : option Z) (key : option Z)
  : oracle.GasPriceOracle Chain Pricer.GasPricer Z :=
  {| oracle.oracle_chainID := chainID;
     oracle.stop := false;
     oracle.contract := caller;
     oracle.backend := node;
     oracle.gasPricer := Pricer.NewPricer 10 1 (fun _ => 100%Q) (1 # 10);
     oracle.config := config chainID key |}.

End Script.

(** ** Vocabulary of the statements *)

(** The quotient [(latest - start) * limit / seconds] over the rationals. *)
Definition real_quotient
  (epochStartBlockNumber latestBlockNumber
   epochLengthSeconds averageBlockGasLimit : Z) : Q :=
  (inject_Z ((latestBlockNumber - epochStartBlockNumber) * averageBlockGasLimit)
   / inject_Z epochLengthSeconds)%Q.

(** The call returned, and what it returned is a finite [float64] that
    denotes [q]. *)
Definition returns_value (r : option float64) (q : Q) : Prop :=
  exists f v, r = Some f /\ Float64.to_Q f = Some v /\ (v == q)%Q.

(** ** go/gas-oracle/oracle: NewGasPriceOracle *)

Module oracle_new.

(** What [NewGasPriceOracle] takes from outside the sources:
    [ethclient.Dial] and the client's [ChainID] call, the generated
    [bindings.NewGasPriceOracle], the client in its role of backend, and
    the constructor [gasprices.NewGasPricer]. *)
Class ClientDeps (W Client GasPricer PrivateKey : Type) : Type := {
  Dial : string -> M W (result Client);
  ChainID : Client -> M W (result Z);
  bindings_NewGasPriceOracle :
    oracle.Address -> Client -> result (oracle.GasPriceOracleCaller W);
  client_backend : Client -> oracle.Backend W;
  gasprices_NewGasPricer :
    float64 -> float64 -> (unit -> float64) -> float64 -> GasPricer
}.

Section Constructor.

Context {W Client GasPricer PrivateKey : Type}.
Context {net : ClientDeps W Client GasPricer PrivateKey}.

(** The loop "ensure that we can actually connect": [ChainID] is called
    until it succeeds, once per tick of a five-second ticker.  It has no
    other exit; [attempts] bounds the calls made here, and [false] says that
    the loop is still going after that many. *)
Fixpoint connect (attempts : nat) (client : Client) : M W bool :=
  match attempts with
  | O => ret false
  | S attempts =>
      r <- ChainID client ;;
      match r with
      | Ok _ => ret true
      | Err _ => connect attempts client
      end
  end.

(** The assignment [cfg.chainID = chainID]. *)
Definition set_chainID (cfg : oracle.Config PrivateKey) (chainID : Z)
  : oracle.Config PrivateKey :=
  {| oracle.chainID := Some chainID;
     oracle.ethereumHttpUrl := oracle.ethereumHttpUrl cfg;
     oracle.gasPriceOracleAddress := oracle.gasPriceOracleAddress cfg;
     oracle.privateKey := oracle.privateKey cfg;
     oracle.gasPrice := oracle.gasPrice cfg;
     oracle.floorPrice := oracle.floorPrice cfg;
     oracle.targetGasPerSecond := oracle.targetGasPerSecond cfg;
     oracle.maxPercentChangePerEpoch := oracle.maxPercentChangePerEpoch cfg;
     oracle.averageBlockGasLimitPerEpoch := oracle.averageBlockGasLimitPerEpoch cfg;
     oracle.epochLengthSeconds := oracle.epochLengthSeconds cfg;
     oracle.significantFactor := oracle.significantFactor cfg |}.

(** [NewGasPriceOracle].  [cfg] is a pointer that the function writes
    through and that the oracle keeps: the configuration as the call left it
    is returned next to the Go result.  [None] is a call still in its
    connection loop after [attempts] tries.  [currentPrice.Uint64()] is the
    low 64 bits of the price read. *)
Definition NewGasPriceOracle (attempts : nat) (cfg : oracle.Config PrivateKey)
  : M W (option (oracle.Config PrivateKey
                 * result (oracle.GasPriceOracle W GasPricer PrivateKey))) :=
  r <- Dial (oracle.ethereumHttpUrl cfg) ;;
  match r with
  | Err err => ret (Some (cfg, Err err))
  | Ok client =>
      connected <- connect attempts client ;;
      if negb connected then ret None
      else
        let address := oracle.gasPriceOracleAddress cfg in
        match bindings_NewGasPriceOracle address client with
        | Err err => ret (Some (cfg, Err err))
        | Ok contract =>
            r <- oracle.GasPrice contract ;;
            match r with
            | Err err => ret (Some (cfg, Err err))
            | Ok currentPrice =>
                log_Info "Starting gas price" [] ;;;
                let gasPricer :=
                  gasprices_NewGasPricer
                    (Float64.of_uint64 (Uint64.wrap currentPrice))
                    (oracle.floorPrice cfg)
                    (fun _ => oracle.targetGasPerSecond cfg)
                    (oracle.maxPercentChangePerEpoch cfg) in
                x <- match oracle.chainID cfg with
                     | Some chainID => ret (cfg, Ok chainID)
                     | None =>
                         log_Info "ChainID unset, fetching remote" [] ;;;
                         r <- ChainID client ;;
                         match r with
                         | Err err => ret (cfg, Err err)
                         | Ok chainID => ret (set_chainID cfg chainID, Ok chainID)
                         end
                     end ;;
                let (cfg, r) := x in
                match r with
                | Err err => ret (Some (cfg, Err err))
                | Ok chainID =>
                    match oracle.privateKey cfg with
                    | None => ret (Some (cfg, Err oracle.errNoPrivateKey))
                    | Some _ =>
                        ret (Some (cfg,
                                   Ok {| oracle.oracle_chainID := Some chainID;
                                         oracle.stop := false;
                                         oracle.contract := contract;
                                         oracle.gasPricer := gasPricer;
                                         oracle.config := cfg;
                                         oracle.backend := client_backend client |}))
                    end
                end
            end
        end
  end.

End Constructor.

End oracle_new.

(** ** go/gas-oracle/main.go *)

Module main.

(** The [%q] verb of [fmt.Errorf]: its argument, quoted. *)
Class Fmt : Type := { quoted : string -> string }.

Section Action.

Context {W Client GasPricer PrivateKey : Type}.
Context {crypto : oracle.Crypto PrivateKey}.
Context {net : oracle_new.ClientDeps W Client GasPricer PrivateKey}.
Context {fmt : Fmt}.

(** How far [app.Action] got: it returned an error, or it sits in
    [gpo.Wait()] beside the loop that [Start] launched. *)
Inductive Served : Type :=
| Returned (err : error)
| Waiting (gpo : oracle.GasPriceOracle W GasPricer PrivateKey).

(** [app.Action].  [args] is [ctx.Args()]; [None] is a call still in the
    connection loop of [NewGasPriceOracle]. *)
Definition Action (attempts : nat) (args : list string) (ctx : oracle.Context)
  : M W (option Served) :=
  match args with
  | arg :: _ => ret (Some (Returned ("invalid command: " ++ quoted arg)))
  | [] =>
      config <- oracle.NewConfig ctx ;;
      r <- oracle_new.NewGasPriceOracle attempts config ;;
      match r with
      | None => ret None
      | Some (_, Err err) => ret (Some (Returned err))
      | Some (_, Ok gpo) =>
          x <- oracle.Start gpo ;;
          match fst x with
          | Some err => ret (Some (Returned err))
          | None => ret (Some (Waiting gpo))
          end
      end
  end.

End Action.

Arguments Served W GasPricer PrivateKey : clear implicits.

End main.

(** ** A scripted node

    A second small world for the examples, for the code that dials a node:
    its [ChainID] call fails a given number of times before it answers. *)

Module Node.

Record Net : Type := {
  down : nat;
  id : Z;
  owner : result oracle.Address;
  price : result Z
}.

Definition ChainID : M Net (result Z) :=
  fun s =>
    match down (world s) with
    | O => Value (Ok (id (world s))) s
    | S n =>
        Value (Err "connection refused")
          {| world := {| down := n; id := id (world s);
                         owner := owner (world s); price := price (world s) |};
             logs := logs s |}
    end.

Definition caller : oracle.GasPriceOracleCaller Net :=
  {| oracle.Owner := fun s => Value (owner (world s)) s;
     oracle.GasPrice := fun s => Value (price (world s)) s |}.

Definition value (x : float64) : Q :=
  match Float64.to_Q x with
  | Some q => q
  | None => 0%Q
  end.

#[global] Instance net : oracle_new.ClientDeps Net unit Pricer.GasPricer Z := {|
  oracle_new.Dial := fun url s =>
    match url with
    | EmptyString => Value (Err "dial: no address") s
    | _ => Value (Ok tt) s
    end;
  oracle_new.ChainID := fun _ => ChainID;
  oracle_new.bindings_NewGasPriceOracle := fun _ _ => Ok caller;
  oracle_new.client_backend := fun _ => {| oracle.HeaderByNumber := ChainID |};
  oracle_new.gasprices_NewGasPricer := fun initial floor target change =>
    Pricer.NewPricer (value initial) (value floor)
      (fun _ => value (target tt)) (value change)
|}.

#[global] Instance fmt : main.Fmt := {| main.quoted := fun a => "'" ++ a ++ "'" |}.

(** A node that answers after [n] refusals, with chain id 10, a contract
    owned by [1007] and the price [10]. *)
Definition start (n : nat) : St Net :=
  {| world := {| down := n; id := 10; owner := Ok 1007; price := Ok 10 |};
     logs := [] |}.

End Node.

(** ** A scripted set-up of the loop

    For the examples: the wrappers of [Loop] over the scripted chain, and a
    constructor that keeps the integer part of its [float64] arguments. *)

Module ScriptLoop.

Definition truncate (x : float64) : Z :=
  let q := Node.value x in Qnum q / Z.pos (Qden q).

#[global] Instance deps : oracle.LoopDeps Script.Chain Pricer.GasPricer Q Z := {|
  oracle.wrapGetLatestBlockNumberFn := fun b => oracle.HeaderByNumber b;
  oracle.wrapUpdateL2GasPriceFn := fun _ cfg =>
    match oracle.privateKey cfg with
    | None => Err "no signer"
    | Some _ => Ok Script.update
    end;
  oracle.gasprices_NewGasPriceUpdater := fun p start limit seconds get update =>
    {| rollup.gasPricer := p;
       rollup.epochStartBlockNumber := truncate start;
       rollup.averageBlockGasLimit := truncate limit;
       rollup.epochLengthSeconds := truncate seconds;
       rollup.getLatestBlockNumberFn := get;
       rollup.updateL2GasPriceFn := update |};
  oracle.int64_of_unrepresentable := fun _ => - 2 ^ 63
|}.

(** The oracle of [Script.gpo], chain id and key set, on epochs of the given
    length. *)
Definition gpo_with_epoch (epochLengthSeconds : float64)
  : oracle.GasPriceOracle Script.Chain Pricer.GasPricer Z :=
  {| oracle.oracle_chainID := Some 420;
     oracle.stop := false;
     oracle.contract := Script.caller;
     oracle.backend := Script.node;
     oracle.gasPricer := Pricer.NewPricer 10 1 (fun _ => 100%Q) (1 # 10);
     oracle.config :=
       {| oracle.chainID := Some 420;
          oracle.ethereumHttpUrl := "http://127.0.0.1:8545";
          oracle.gasPriceOracleAddress := 15;
          oracle.privateKey := Some 7;
          oracle.gasPrice := None;
          oracle.floorPrice := Float64.of_uint64 1;
          oracle.targetGasPerSecond := Float64.of_uint64 100;
          oracle.maxPercentChangePerEpoch := Float64.decimal 1 1;
          oracle.averageBlockGasLimitPerEpoch := Float64.of_uint64 11000000;
          oracle.epochLengthSeconds := epochLengthSeconds;
          oracle.significantFactor := Float64.decimal 5 2 |} |}.

End ScriptLoop.

(** ** More vocabulary *)

(** A collaborator that always comes back with an answer: it neither exits
    the process nor panics. *)
Definition answers {W A : Type} (m : M W A) : Prop :=
  forall s, exists a s', m s = Value a s'.

(** How many times the [select] of [Loop] receives from [ctx.Done()]. *)
Fixpoint cancellations (events : list oracle.Event) : nat :=
  match events with
  | [] => O
  | oracle.CtxDone :: events => S (cancellations events)
  | oracle.TimerTick :: events => cancellations events
  end.

Section Refusals.

Context {W Client GasPricer PrivateKey : Type}.
Context {net : oracle_new.ClientDeps W Client GasPricer PrivateKey}.

(** The next [n] calls of [ChainID] on the client fail. *)
Fixpoint refuses (n : nat) (client : Client) (s : St W) : Prop :=
  match n with
  | O => True
  | S n =>
      exists err s',
        oracle_new.ChainID client s = Value (Err err) s' /\ refuses n client s'
  end.

End Refusals.

(** Two command lines that set the same flags and give the flags that are
    set the same values. *)
Definition same_flags (ctx ctx' : oracle.Context) : Prop :=
  forall n,
    oracle.GlobalIsSet ctx' n = oracle.GlobalIsSet ctx n /\
    (oracle.GlobalIsSet ctx n = true ->
     oracle.GlobalString ctx' n = oracle.GlobalString ctx n /\
     oracle.GlobalUint64 ctx' n = oracle.GlobalUint64 ctx n /\
     oracle.GlobalFloat64 ctx' n = oracle.GlobalFloat64 ctx n).

(** The command line [ctx] with the private key given as [hex]. *)
Definition with_private_key (ctx : oracle.Context) (hex : string) : oracle.Context :=
  {| oracle.GlobalIsSet := fun n =>
       if String.eqb n (flags.Name flags.PrivateKeyFlag) then true
       else oracle.GlobalIsSet ctx n;
     oracle.GlobalString := fun n =>
       if String.eqb n (flags.Name flags.PrivateKeyFlag) then hex
       else oracle.GlobalString ctx n;
     oracle.GlobalUint64 := oracle.GlobalUint64 ctx;
     oracle.GlobalFloat64 := oracle.GlobalFloat64 ctx |}.

(** The private key as [NewConfig] hands it to [HexToECDSA]: without a
    leading [0x]. *)
Definition trim_0x (hex : string) : string :=
  if String.prefix "0x" hex
  then String.substring 2 (String.length hex - 2) hex
  else hex.

(** The four flags whose absence [NewConfig] does not survive, in the
    order in which it looks for them. *)
Definition required_flags : list flags.Flag :=
  [ flags.TargetGasPerSecondFlag; flags.MaxPercentChangePerEpochFlag;
    flags.AverageBlockGasLimitPerEpochFlag; flags.EpochLengthSecondsFlag ].

(** The first flag of a list that the command line does not set. *)
Fixpoint first_missing (ctx : oracle.Context) (fs : list flags.Flag)
  : option flags.Flag :=
  match fs with
  | [] => None
  | f :: fs =>
      if oracle.GlobalIsSet ctx (flags.Name f) then first_missing ctx fs
      else Some f
  end.

(** * Part II: the properties *)

(** ** Conversion of small integers to binary64 is exact *)

Lemma digits2_pos_lower (m : positive) :
  2 ^ (Z.pos (digits2_pos m) - 1) <= Z.pos m.
Proof.
  induction m as [m IH | m IH | ]; cbn [digits2_pos].
  - rewrite Pos2Z.inj_succ.
    replace (Z.succ (Z.pos (digits2_pos m)) - 1)
      with (Z.succ (Z.pos (digits2_pos m) - 1)) by lia.
    rewrite Z.pow_succ_r by lia. lia.
  - rewrite Pos2Z.inj_succ.
    replace (Z.succ (Z.pos (digits2_pos m)) - 1)
      with (Z.succ (Z.pos (digits2_pos m) - 1)) by lia.
    rewrite Z.pow_succ_r by lia. lia.
  - simpl. lia.
Qed.

Lemma digits2_pos_le_prec (m : positive) :
  Z.pos m < 2 ^ 53 -> Z.pos (digits2_pos m) <= 53.
Proof.
  intros Hm.
  destruct (Z_le_gt_dec (Z.pos (digits2_pos m)) 53) as [H | H]; [exact H | exfalso].
  pose proof (digits2_pos_lower m) as Hl.
  assert (2 ^ 53 <= 2 ^ (Z.pos (digits2_pos m) - 1)) by (apply Z.pow_le_mono_r; lia).
  lia.
Qed.

Lemma digits2_pos_iter_xO (m k : positive) :
  digits2_pos (Pos.iter xO m k) = (digits2_pos m + k)%positive.
Proof.
  induction k as [ | k IH] using Pos.peano_ind.
  - cbn. lia.
  - rewrite Pos.iter_succ. cbn [digits2_pos]. rewrite IH. lia.
Qed.

Lemma iter_xO_pow (m k : positive) :
  Pos.iter xO m k = (m * 2 ^ k)%positive.
Proof.
  induction k as [ | k IH] using Pos.peano_ind.
  - cbn. lia.
  - rewrite Pos.iter_succ, IH, Pos.pow_succ_r. lia.
Qed.

(** Below [2^53] the mantissa is only shifted into place, never rounded. *)
Lemma of_uint64_small (m : positive) :
  Z.pos m < 2 ^ 53 ->
  Float64.of_uint64 (Z.pos m) =
    match 53 - Z.pos (digits2_pos m) with
    | Zpos k => S754_finite false (Pos.iter xO m k) (Z.neg k)
    | _ => S754_finite false m 0
    end.
Proof.
  intros Hm. pose proof (digits2_pos_le_prec m Hm) as Hd.
  unfold Float64.of_uint64, binary_normalize, binary_round, shl_align, fexp, emin,
    Float64.prec, Float64.emax.
  rewrite Z.add_0_r.
  replace (Z.max (Z.pos (digits2_pos m) - 53) (3 - 1024 - 53))
    with (Z.pos (digits2_pos m) - 53) by lia.
  rewrite Z.sub_0_r.
  destruct (53 - Z.pos (digits2_pos m)) as [ | k | k] eqn:Hk; try lia.
  - replace (Z.pos (digits2_pos m) - 53) with 0 by lia.
    unfold binary_round_aux, shr_fexp, shr, fexp, emin.
    cbn [Zdigits2 shr_record_of_loc].
    rewrite Z.add_0_r.
    replace (Z.max (Z.pos (digits2_pos m) - 53) (3 - 1024 - 53) - 0) with 0 by lia.
    cbn [shr_m loc_of_shr_record round_nearest_even Zdigits2].
    rewrite Z.add_0_r.
    replace (Z.max (Z.pos (digits2_pos m) - 53) (3 - 1024 - 53) - 0) with 0 by lia.
    cbn [shr_m]. reflexivity.
  - replace (Z.pos (digits2_pos m) - 53) with (Z.neg k) by lia.
    unfold binary_round_aux, shr_fexp, shr, fexp, emin.
    cbn [Zdigits2 shr_record_of_loc].
    rewrite digits2_pos_iter_xO.
    replace (Z.max (Z.pos (digits2_pos m + k) + Z.neg k - 53) (3 - 1024 - 53) - Z.neg k)
      with 0 by lia.
    cbn [shr_m loc_of_shr_record round_nearest_even Zdigits2].
    rewrite digits2_pos_iter_xO.
    replace (Z.max (Z.pos (digits2_pos m + k) + Z.neg k - 53) (3 - 1024 - 53) - Z.neg k)
      with 0 by lia.
    cbn [shr_m].
    replace (Z.neg k <=? 1024 - 53) with true by (symmetry; apply Z.leb_le; lia).
    reflexivity.
Qed.

Lemma of_uint64_exact (n : Z) :
  0 <= n < 2 ^ 53 ->
  exists v, Float64.to_Q (Float64.of_uint64 n) = Some v /\ (v == inject_Z n)%Q.
Proof.
  intros [Hlo Hhi]. destruct n as [ | m | m]; try lia.
  - exists 0%Q. split; reflexivity.
  - rewrite (of_uint64_small m Hhi).
    destruct (53 - Z.pos (digits2_pos m)) as [ | k | k].
    + eexists. split; reflexivity.
    + eexists. split; [reflexivity | ].
      rewrite iter_xO_pow. unfold Qeq, inject_Z. cbn [Qnum Qden]. lia.
    + eexists. split; reflexivity.
Qed.

(** The literals of the sources, as binary64 values. *)
Example decimal_0_05 :
  Float64.decimal 5 2 = S754_finite false 7205759403792794 (-57).
Proof. vm_compute. reflexivity. Qed.

Example decimal_0_9 :
  Float64.decimal 9 1 = S754_finite false 8106479329266893 (-53).
Proof. vm_compute. reflexivity. Qed.

(** Above [2^53] the conversion rounds: [2^53 + 1] becomes [2^53]. *)
Example of_uint64_rounds :
  Float64.of_uint64 (2 ^ 53 + 1) = Float64.of_uint64 (2 ^ 53).
Proof. vm_compute. reflexivity. Qed.

(** ** GetAverageGasPerSecond *)

(** Ten blocks of one gas in ten seconds: one gas per second. *)
Example average_of_ten_blocks :
  rollup.GetAverageGasPerSecond 10 20 10 1 = Some (Float64.of_uint64 1).
Proof. vm_compute. reflexivity. Qed.

(** The product wraps: [2^62] blocks of four gas count as none. *)
Example average_wraps :
  rollup.GetAverageGasPerSecond 0 (2 ^ 62) 1 4 = Some Float64.zero.
Proof. vm_compute. reflexivity. Qed.

(** An epoch length of zero is a panic. *)
Example average_divides_by_zero :
  rollup.GetAverageGasPerSecond 0 1 0 1 = None.
Proof. reflexivity. Qed.

Lemma uint64_quotient (s l e a : Z) :
  Uint64.in_range l -> 0 <= s <= l -> 1 <= e ->
  rollup.GetAverageGasPerSecond s l e a
  = Some (Float64.of_uint64 (((l - s) * a) mod 2 ^ 64 / e)).
Proof.
  intros [Hl0 Hl1] Hs He.
  unfold rollup.GetAverageGasPerSecond, Uint64.div, Uint64.mul, Uint64.sub,
    Uint64.wrap, Uint64.modulus in *.
  rewrite (Z.mod_small (l - s)) by lia.
  destruct (Z.eqb_spec e 0) as [E | _]; [lia | reflexivity].
Qed.

Lemma floor_below_quotient (p e : Z) :
  1 <= e -> (inject_Z (p / e) <= inject_Z p / inject_Z e)%Q.
Proof.
  intros He. apply Qle_shift_div_l.
  - change 0%Q with (inject_Z 0). rewrite <- Zlt_Qlt. lia.
  - rewrite <- inject_Z_mult, <- Zle_Qle.
    pose proof (Z.mul_div_le p e ltac:(lia)). lia.
Qed.

Lemma quotient_below_floor_succ (p e : Z) :
  1 <= e -> (inject_Z p / inject_Z e < inject_Z (p / e) + 1)%Q.
Proof.
  intros He. apply Qlt_shift_div_r.
  - change 0%Q with (inject_Z 0). rewrite <- Zlt_Qlt. lia.
  - change 1%Q with (inject_Z 1).
    rewrite <- inject_Z_plus, <- inject_Z_mult, <- Zlt_Qlt.
    pose proof (Z.mul_succ_div_gt p e ltac:(lia)). lia.
Qed.

Lemma floor_is_quotient_iff (p e : Z) :
  1 <= e ->
  (inject_Z (p / e) == inject_Z p / inject_Z e)%Q <-> (e | p).
Proof.
  intros He.
  assert (Hne : ~ (inject_Z e == 0)%Q).
  { change 0%Q with (inject_Z 0). rewrite inject_Z_injective. lia. }
  split.
  - intros H.
    assert (H' : (inject_Z (p / e) * inject_Z e == inject_Z p)%Q).
    { rewrite H. field. exact Hne. }
    rewrite <- inject_Z_mult, inject_Z_injective in H'.
    exists (p / e). lia.
  - intros [k Hk]. subst p. rewrite Z.div_mul by lia.
    rewrite inject_Z_mult. field. exact Hne.
Qed.

(** One block, one gas per block, epochs of two seconds: the quotient is
    one half, the function returns zero. *)
Lemma GetAverageGasPerSecond_not_real_quotient :
  Uint64.in_range 0 /\ Uint64.in_range 1 /\ Uint64.in_range 2 /\
  1 <= 2 /\ 1 <= 1 /\ 0 <= 1 /\
  rollup.GetAverageGasPerSecond 0 1 2 1 = Some Float64.zero /\
  ~ returns_value (rollup.GetAverageGasPerSecond 0 1 2 1) (real_quotient 0 1 2 1).
Proof.
  unfold Uint64.in_range, Uint64.modulus.
  repeat (split; [lia || reflexivity | ]).
  intros (f & v & Hf & Hv & Heq).
  vm_compute in Hf. inversion Hf; subst f; clear Hf.
  cbn in Hv. inversion Hv; subst v; clear Hv.
  vm_compute in Heq. discriminate Heq.
Qed.

(** C1, as the code has it.  For in-range arguments with
    [epochLengthSeconds >= 1], [averageBlockGasLimit >= 1] and
    [latestBlockNumber >= epochStartBlockNumber], [GetAverageGasPerSecond]
    returns the [float64] conversion of the uint64 quotient
    [((latest - start) * limit mod 2^64) / seconds].  When the product does
    not wrap, that integer is the real-valued quotient rounded down; when it
    is moreover below [2^53] the conversion is exact, and the value returned
    is the real-valued quotient exactly when [epochLengthSeconds] divides the
    product. *)
Theorem GetAverageGasPerSecond_truncated_quotient
  (epochStartBlockNumber latestBlockNumber
   epochLengthSeconds averageBlockGasLimit : Z) :
  Uint64.in_range epochStartBlockNumber ->
  Uint64.in_range latestBlockNumber ->
  Uint64.in_range epochLengthSeconds ->
  Uint64.in_range averageBlockGasLimit ->
  1 <= epochLengthSeconds ->
  1 <= averageBlockGasLimit ->
  epochStartBlockNumber <= latestBlockNumber ->
  let product := (latestBlockNumber - epochStartBlockNumber) * averageBlockGasLimit in
  let q := product mod 2 ^ 64 / epochLengthSeconds in
  let returned :=
    rollup.GetAverageGasPerSecond epochStartBlockNumber latestBlockNumber
      epochLengthSeconds averageBlockGasLimit in
  let exact :=
    real_quotient epochStartBlockNumber latestBlockNumber
      epochLengthSeconds averageBlockGasLimit in
  returned = Some (Float64.of_uint64 q) /\
  (product < 2 ^ 64 ->
   (inject_Z q <= exact < inject_Z q + 1)%Q /\
   (q < 2 ^ 53 ->
    returns_value returned (inject_Z q) /\
    (returns_value returned exact <-> (epochLengthSeconds | product)))).
Proof.
  intros Hs Hl He Ha He1 Ha1 Hsl product q returned exact.
  assert (Hret : returned = Some (Float64.of_uint64 q)).
  { apply uint64_quotient; [exact Hl | | exact He1].
    unfold Uint64.in_range in Hs. lia. }
  split; [exact Hret | ].
  intros Hsmall.
  assert (Hp0 : 0 <= product) by (subst product; nia).
  assert (Hq : q = product / epochLengthSeconds).
  { subst q. rewrite Z.mod_small by lia. reflexivity. }
  assert (Hq0 : 0 <= q) by (rewrite Hq; apply Z.div_pos; lia).
  split.
  - rewrite Hq. unfold exact, real_quotient. fold product. split.
    + apply floor_below_quotient; exact He1.
    + apply quotient_below_floor_succ; exact He1.
  - intros Hq53.
    destruct (of_uint64_exact q (conj Hq0 Hq53)) as (v & Hv & Hvq).
    assert (Hval : returns_value returned (inject_Z q)).
    { exists (Float64.of_uint64 q), v. auto. }
    split; [exact Hval | ].
    rewrite <- (floor_is_quotient_iff product epochLengthSeconds He1), <- Hq.
    unfold exact, real_quotient. fold product.
    split.
    + intros (f & v' & Hf & Hv' & Heq).
      rewrite Hret in Hf. inversion Hf; subst f; clear Hf.
      rewrite Hv in Hv'. inversion Hv'; subst v'; clear Hv'.
      rewrite <- Hvq. exact Heq.
    + intros Heq. exists (Float64.of_uint64 q), v.
      repeat split; [exact Hret | exact Hv | ].
      rewrite Hvq. exact Heq.
Qed.

(** Seven blocks of three gas over two seconds: 21 / 2 comes back as 10. *)
Lemma GetAverageGasPerSecond_truncated_quotient_witness :
  rollup.GetAverageGasPerSecond 0 7 2 3 = Some (Float64.of_uint64 10) /\
  (inject_Z 10 <= real_quotient 0 7 2 3 < inject_Z 10 + 1)%Q.
Proof.
  assert (R : forall x, 0 <= x < 2 ^ 64 -> Uint64.in_range x) by (intros x H; exact H).
  destruct (GetAverageGasPerSecond_truncated_quotient 0 7 2 3) as [H1 H2];
    try (apply R); try lia.
  split; [exact H1 | ].
  apply H2. reflexivity.
Defined.

(** ** UpdateGasPrice *)

Section UpdaterFacts.

Context {W GasPricer price : Type} {ops : rollup.GasPricerOps GasPricer price}.

(** The early return on an epoch that is out of order. *)
Lemma UpdateGasPrice_rejects
  (g : rollup.GasPriceUpdater W GasPricer price) (s s1 : St W) (latest : Z) :
  rollup.getLatestBlockNumberFn g s = Value (Ok latest) s1 ->
  latest < rollup.epochStartBlockNumber g ->
  rollup.UpdateGasPrice g s
  = Value (g, Some "Latest block number less than the last epoch's block number.") s1.
Proof.
  intros Hget Hlt. unfold rollup.UpdateGasPrice, bind. rewrite Hget.
  destruct (Z.ltb_spec latest (rollup.epochStartBlockNumber g)); [reflexivity | lia].
Qed.

(** What any call that comes back leaves of the updater: the checkpoint
    where it was or at the height just read, which is not below it; the two
    divisor and factor fields and the two callbacks untouched. *)
Lemma UpdateGasPrice_frame
  (g g' : rollup.GasPriceUpdater W GasPricer price) (s s' : St W)
  (e : option error) :
  rollup.UpdateGasPrice g s = Value (g', e) s' ->
  rollup.epochStartBlockNumber g <= rollup.epochStartBlockNumber g' /\
  rollup.epochLengthSeconds g' = rollup.epochLengthSeconds g /\
  rollup.averageBlockGasLimit g' = rollup.averageBlockGasLimit g /\
  rollup.getLatestBlockNumberFn g' = rollup.getLatestBlockNumberFn g /\
  rollup.updateL2GasPriceFn g' = rollup.updateL2GasPriceFn g.
Proof.
  unfold rollup.UpdateGasPrice, bind, ret, panic.
  destruct (rollup.getLatestBlockNumberFn g s) as [[latest | err] s1 | s1 | s1];
    try discriminate.
  - destruct (Z.ltb_spec latest (rollup.epochStartBlockNumber g)) as [Hlt | Hge].
    + intros H; inversion H; subst. repeat split; lia.
    + destruct (rollup.GetAverageGasPerSecond _ _ _ _) as [avg | ]; try discriminate.
      destruct (rollup.CompleteEpoch (rollup.gasPricer g) avg) as [p [newPrice | err]].
      * match goal with
        | |- context [rollup.updateL2GasPriceFn ?a ?b ?c] =>
            destruct (rollup.updateL2GasPriceFn a b c) as [[err | ] s2 | s2 | s2]
        end; try discriminate;
          intros H; inversion H; subst; cbn; repeat split; lia.
      * intros H; inversion H; subst; cbn. repeat split; lia.
  - intros H; inversion H; subst. repeat split; lia.
Qed.

Lemma update_calls_frame (g g' : rollup.GasPriceUpdater W GasPricer price) :
  rollup.update_calls g g' ->
  rollup.epochStartBlockNumber g <= rollup.epochStartBlockNumber g' /\
  rollup.epochLengthSeconds g' = rollup.epochLengthSeconds g.
Proof.
  induction 1 as [g | g g' g'' Hcalls [IHle IHeq] (s & s' & e & Hstep)].
  - split; [lia | reflexivity].
  - apply UpdateGasPrice_frame in Hstep as (Hle & Heq & _).
    split; [lia | congruence].
Qed.

(** The division panics on a zero divisor and on nothing else. *)
Lemma GetAverageGasPerSecond_defined (s l e a : Z) :
  e <> 0 -> rollup.GetAverageGasPerSecond s l e a <> None.
Proof.
  intros He. unfold rollup.GetAverageGasPerSecond, Uint64.div.
  destruct (Z.eqb_spec e 0); [contradiction | discriminate].
Qed.

(** A panic of [UpdateGasPrice] with a non-zero epoch length is a panic of
    one of its two callbacks. *)
Lemma UpdateGasPrice_panic_origin (g : rollup.GasPriceUpdater W GasPricer price) (s s2 : St W) :
  rollup.epochLengthSeconds g <> 0 ->
  rollup.UpdateGasPrice g s = Panicked s2 ->
  rollup.getLatestBlockNumberFn g s = Panicked s2 \/
  exists p s1, rollup.updateL2GasPriceFn g p s1 = Panicked s2.
Proof.
  intros He. unfold rollup.UpdateGasPrice, bind, ret, panic.
  destruct (rollup.getLatestBlockNumberFn g s) as [[latest | err] s1 | s1 | s1];
    try discriminate.
  - destruct (Z.ltb_spec latest (rollup.epochStartBlockNumber g)) as [Hlt | Hge];
      try discriminate.
    pose proof (GetAverageGasPerSecond_defined (rollup.epochStartBlockNumber g)
                  latest _ (rollup.averageBlockGasLimit g) He) as Hdef.
    destruct (rollup.GetAverageGasPerSecond _ _ _ _) as [avg | ]; [ | contradiction].
    destruct (rollup.CompleteEpoch (rollup.gasPricer g) avg) as [p [newPrice | err]];
      try discriminate.
    match goal with
    | |- context [rollup.updateL2GasPriceFn ?a ?b ?c] =>
        destruct (rollup.updateL2GasPriceFn a b c) as [[err | ] s3 | s3 | s3] eqn:Hupd
    end; try discriminate.
    intros H; inversion H; subst. right. cbn in Hupd. eauto.
  - intros H; inversion H; subst. left; reflexivity.
Qed.

(** C2.  If [getLatestBlockNumberFn] succeeds with a height strictly below
    the stored [epochStartBlockNumber], then [UpdateGasPrice] returns an
    error and leaves the checkpoint (indeed the whole updater) as it was, so
    the next call starts from the same point. *)
Theorem UpdateGasPrice_out_of_order_keeps_checkpoint
  (g : rollup.GasPriceUpdater W GasPricer price) (s s1 : St W) (latestBlockNumber : Z) :
  rollup.getLatestBlockNumberFn g s = Value (Ok latestBlockNumber) s1 ->
  latestBlockNumber < rollup.epochStartBlockNumber g ->
  exists (err : error) (g' : rollup.GasPriceUpdater W GasPricer price),
    rollup.UpdateGasPrice g s = Value (g', Some err) s1 /\
    rollup.epochStartBlockNumber g' = rollup.epochStartBlockNumber g /\
    g' = g.
Proof.
  intros Hget Hlt. eexists; exists g.
  split; [apply (UpdateGasPrice_rejects g s s1 latestBlockNumber Hget Hlt) | ].
  split; reflexivity.
Qed.

(** C3.  If [getLatestBlockNumberFn] succeeds with a height not below the
    checkpoint and [CompleteEpoch] succeeds on the rate computed from it,
    then the checkpoint after the call is that height, whatever the price
    write returned: [nil] or an error. *)
Theorem UpdateGasPrice_advances_checkpoint
  (g : rollup.GasPriceUpdater W GasPricer price) (s s1 s2 : St W) (latestBlockNumber : Z)
  (averageGasPerSecond : float64) (p : GasPricer) (newPrice : price)
  (written : option error) :
  rollup.getLatestBlockNumberFn g s = Value (Ok latestBlockNumber) s1 ->
  rollup.epochStartBlockNumber g <= latestBlockNumber ->
  rollup.GetAverageGasPerSecond (rollup.epochStartBlockNumber g) latestBlockNumber
    (rollup.epochLengthSeconds g) (rollup.averageBlockGasLimit g)
  = Some averageGasPerSecond ->
  rollup.CompleteEpoch (rollup.gasPricer g) averageGasPerSecond = (p, Ok newPrice) ->
  rollup.updateL2GasPriceFn g (rollup.curPrice p) s1 = Value written s2 ->
  exists g' : rollup.GasPriceUpdater W GasPricer price,
    rollup.UpdateGasPrice g s = Value (g', written) s2 /\
    rollup.epochStartBlockNumber g' = latestBlockNumber /\
    rollup.gasPricer g' = p.
Proof.
  intros Hget Hge Havg Hce Hupd.
  unfold rollup.UpdateGasPrice, bind, ret. rewrite Hget.
  destruct (Z.ltb_spec latestBlockNumber (rollup.epochStartBlockNumber g)); [lia | ].
  rewrite Havg, Hce. cbn. rewrite Hupd.
  eexists. split; [destruct written; reflexivity | ].
  split; reflexivity.
Qed.

(** C4.  Over any sequence of [UpdateGasPrice] calls, each returning [nil]
    or an error, whatever the chain does in between, the checkpoint never
    decreases; and the updater so reached answers a height below its
    checkpoint with an error and stays as it was: the height is not
    clamped. *)
Theorem checkpoint_never_decreases (g g' : rollup.GasPriceUpdater W GasPricer price) :
  rollup.update_calls g g' ->
  rollup.epochStartBlockNumber g <= rollup.epochStartBlockNumber g' /\
  (forall (s s1 : St W) (latestBlockNumber : Z),
      rollup.getLatestBlockNumberFn g' s = Value (Ok latestBlockNumber) s1 ->
      latestBlockNumber < rollup.epochStartBlockNumber g' ->
      exists err : error,
        rollup.UpdateGasPrice g' s = Value (g', Some err) s1).
Proof.
  intros Hcalls. split.
  - apply (update_calls_frame g g' Hcalls).
  - intros s s1 latest Hget Hlt. eexists.
    apply (UpdateGasPrice_rejects g' s s1 latest Hget Hlt).
Qed.

(** C10.  On uint64 arguments, and for any pricer pointer, nil or not,
    [NewGasPriceUpdater] returns an error exactly when
    [averageBlockGasLimit < 1] or [epochLengthSeconds < 1]; the check on
    [epochStartBlockNumber] never produces its error.  An updater it returns
    has [epochLengthSeconds >= 1], and keeps it through any sequence of
    [UpdateGasPrice] calls: the division in [GetAverageGasPerSecond] never
    panics there, and a panic of [UpdateGasPrice] can only be one of its two
    callbacks'. *)
Theorem NewGasPriceUpdater_guards
  (gasPricer : option GasPricer)
  (epochStartBlockNumber averageBlockGasLimit epochLengthSeconds : Z)
  (getLatestBlockNumberFn : rollup.GetLatestBlockNumberFn W)
  (updateL2GasPriceFn : rollup.UpdateL2GasPriceFn W price) :
  Uint64.in_range epochStartBlockNumber ->
  Uint64.in_range averageBlockGasLimit ->
  Uint64.in_range epochLengthSeconds ->
  let constructed :=
    rollup.NewGasPriceUpdater gasPricer epochStartBlockNumber averageBlockGasLimit
      epochLengthSeconds getLatestBlockNumberFn updateL2GasPriceFn in
  ((exists err, constructed = Some (Err err))
   <-> averageBlockGasLimit < 1 \/ epochLengthSeconds < 1) /\
  constructed <> Some (Err "epochStartBlockNumber must be non-negative.") /\
  (forall g : rollup.GasPriceUpdater W GasPricer price, constructed = Some (Ok g) ->
     1 <= rollup.epochLengthSeconds g /\
     forall g' : rollup.GasPriceUpdater W GasPricer price,
       rollup.update_calls g g' ->
       (forall latestBlockNumber,
           rollup.GetAverageGasPerSecond (rollup.epochStartBlockNumber g')
             latestBlockNumber (rollup.epochLengthSeconds g')
             (rollup.averageBlockGasLimit g') <> None) /\
       (forall s s2, rollup.UpdateGasPrice g' s = Panicked s2 ->
           rollup.getLatestBlockNumberFn g' s = Panicked s2 \/
           exists p s1, rollup.updateL2GasPriceFn g' p s1 = Panicked s2)).
Proof.
  intros [Hs0 _] _ _ constructed. subst constructed.
  unfold rollup.NewGasPriceUpdater.
  destruct (Z.ltb_spec epochStartBlockNumber 0) as [Hneg | _]; [lia | ].
  destruct (Z.ltb_spec averageBlockGasLimit 1) as [Ha | Ha].
  { split; [ | split]; [ | discriminate | discriminate].
    split; [intros _; left; exact Ha | intros _; eexists; reflexivity]. }
  destruct (Z.ltb_spec epochLengthSeconds 1) as [He | He].
  { split; [ | split]; [ | discriminate | discriminate].
    split; [intros _; right; exact He | intros _; eexists; reflexivity]. }
  destruct gasPricer as [pricer | ].
  2: { split; [ | split]; [ | discriminate | intros g Hg; discriminate Hg].
       split; [intros [err H]; discriminate | lia]. }
  split; [ | split]; [ | discriminate | ].
  - split; [intros [err H]; discriminate | lia].
  - intros g Hg. inversion Hg; subst g; clear Hg. cbn [rollup.epochLengthSeconds].
    split; [exact He | ].
    intros g' Hcalls.
    apply update_calls_frame in Hcalls as [_ Hlen]. cbn in Hlen.
    split.
    + intros latest. apply GetAverageGasPerSecond_defined. lia.
    + intros s s2. apply UpdateGasPrice_panic_origin. lia.
Qed.

End UpdaterFacts.

(** Checkpoint 5, the chain reports height 3. *)
Lemma UpdateGasPrice_out_of_order_keeps_checkpoint_witness :
  exists (err : error) g',
    rollup.UpdateGasPrice (Script.updater 100) (Script.start (Script.chain_at [3] false))
    = Value (g', Some err) (Script.start (Script.chain_at [] false)) /\
    rollup.epochStartBlockNumber g' = 5 /\
    g' = Script.updater 100.
Proof.
  apply (UpdateGasPrice_out_of_order_keeps_checkpoint
           (Script.updater 100) (Script.start (Script.chain_at [3] false))
           (Script.start (Script.chain_at [] false)) 3).
  - reflexivity.
  - cbn. lia.
Defined.

(** Checkpoint 5, the chain reports height 7 and refuses the write. *)
Lemma UpdateGasPrice_advances_checkpoint_witness :
  exists g',
    rollup.UpdateGasPrice (Script.updater 100) (Script.start (Script.chain_at [7] true))
    = Value (g', Some "write refused") (Script.start (Script.chain_at [] true)) /\
    rollup.epochStartBlockNumber g' = 7 /\
    rollup.gasPricer g'
    = fst (Pricer.CompleteEpoch (rollup.gasPricer (Script.updater 100))
             (Float64.of_uint64 2200000)).
Proof.
  apply (UpdateGasPrice_advances_checkpoint
           (Script.updater 100) (Script.start (Script.chain_at [7] true))
           (Script.start (Script.chain_at [] true))
           (Script.start (Script.chain_at [] true)) 7
           (Float64.of_uint64 2200000)
           (fst (Pricer.CompleteEpoch (rollup.gasPricer (Script.updater 100))
                   (Float64.of_uint64 2200000)))
           (110 # 10)%Q
           (Some "write refused")).
  - reflexivity.
  - cbn. lia.
  - vm_compute. reflexivity.
  - vm_compute. reflexivity.
  - reflexivity.
Defined.

(** Checkpoint 5, the chain reports 7 and then 6: the second call is
    rejected at checkpoint 7. *)
Lemma checkpoint_never_decreases_witness :
  5 <= 7 /\
  exists err : error,
    rollup.UpdateGasPrice
      (rollup.set_epochStartBlockNumber
         (rollup.set_gasPricer (Script.updater 100)
            (fst (Pricer.CompleteEpoch (rollup.gasPricer (Script.updater 100))
                    (Float64.of_uint64 2200000)))) 7)
      (Script.start (Script.chain_at [6] true))
    = Value (rollup.set_epochStartBlockNumber
         (rollup.set_gasPricer (Script.updater 100)
            (fst (Pricer.CompleteEpoch (rollup.gasPricer (Script.updater 100))
                    (Float64.of_uint64 2200000)))) 7, Some err)
        (Script.start (Script.chain_at [] true)).
Proof.
  destruct (checkpoint_never_decreases
              (Script.updater 100)
              (rollup.set_epochStartBlockNumber
                 (rollup.set_gasPricer (Script.updater 100)
                    (fst (Pricer.CompleteEpoch (rollup.gasPricer (Script.updater 100))
                            (Float64.of_uint64 2200000)))) 7)) as [Hle Hrej].
  - eapply rollup.calls_more; [apply rollup.calls_none | ].
    exists (Script.start (Script.chain_at [7; 6] true)),
           (Script.start (Script.chain_at [6] true)),
           (Some "write refused").
    vm_compute. reflexivity.
  - split; [exact Hle | ].
    apply (Hrej (Script.start (Script.chain_at [6] true))
             (Script.start (Script.chain_at [] true)) 6).
    + reflexivity.
    + cbn. lia.
Defined.

(** An epoch length of 0 is refused; with an epoch length of 10 the
    division is defined at every height. *)
Lemma NewGasPriceUpdater_guards_witness :
  (exists err,
      rollup.NewGasPriceUpdater (Some (Pricer.NewPricer 10 1 (fun _ => 100%Q) (1 # 10)))
        5 11000000 0 Script.getLatest Script.update = Some (Err err)) /\
  (forall latestBlockNumber,
      rollup.GetAverageGasPerSecond 5 latestBlockNumber 10 11000000 <> None).
Proof.
  assert (R : forall x, 0 <= x < 2 ^ 64 -> Uint64.in_range x) by (intros x H; exact H).
  split.
  - destruct (NewGasPriceUpdater_guards (W := Script.Chain)
                (Some (Pricer.NewPricer 10 1 (fun _ => 100%Q) (1 # 10)))
                5 11000000 0 Script.getLatest Script.update) as [[_ Hiff] _];
      try (apply R; lia).
    apply Hiff. right. lia.
  - destruct (NewGasPriceUpdater_guards (W := Script.Chain)
                (Some (Pricer.NewPricer 10 1 (fun _ => 100%Q) (1 # 10)))
                5 11000000 10 Script.getLatest Script.update) as (_ & _ & Hok);
      try (apply R; lia).
    destruct (Hok (Script.updater 100) eq_refl) as [_ Hcalls].
    intros latest.
    apply (Hcalls (Script.updater 100) (rollup.calls_none _)).
Defined.

(** ** The Pricer *)

Section PricerFacts.

Local Open Scope Q_scope.

Lemma clamp_upper (lo hi x : Q) : Pricer.clamp lo hi x <= hi.
Proof. unfold Pricer.clamp. apply Q.le_min_r. Qed.

Lemma clamp_lower (lo hi x : Q) : lo <= hi -> lo <= Pricer.clamp lo hi x.
Proof.
  intros H. unfold Pricer.clamp. apply Q.min_glb; [apply Q.le_max_r | exact H].
Qed.

Lemma Qmult_le_nonneg_l (c x y : Q) : 0 <= c -> x <= y -> c * x <= c * y.
Proof.
  intros Hc Hxy. rewrite (Qmult_comm c x), (Qmult_comm c y).
  apply Qmult_le_compat_r; assumption.
Qed.

(** A call on valid inputs goes through all six steps. *)
Lemma CompleteEpoch_valid (p : Pricer.GasPricer) (observedGasPerSecond : float64)
  (observed : Q) :
  Float64.to_Q observedGasPerSecond = Some observed ->
  0 <= observed ->
  0 < Pricer.targetRateFn p tt ->
  let newPrice :=
    Qmax (Pricer.curPrice p *
          Pricer.clamp (1 - Pricer.maxPercentChangePerEpoch p)
            (1 + Pricer.maxPercentChangePerEpoch p)
            (observed / Pricer.targetRateFn p tt))
         (Pricer.floorPrice p) in
  Pricer.CompleteEpoch p observedGasPerSecond
  = ({| Pricer.curPrice := newPrice;
        Pricer.floorPrice := Pricer.floorPrice p;
        Pricer.targetRateFn := Pricer.targetRateFn p;
        Pricer.maxPercentChangePerEpoch := Pricer.maxPercentChangePerEpoch p |},
     Ok newPrice).
Proof.
  intros Hfin Hobs Htarget newPrice. unfold Pricer.CompleteEpoch. rewrite Hfin.
  apply Qle_bool_iff in Hobs. rewrite Hobs. cbn [negb].
  destruct (Qle_bool (Pricer.targetRateFn p tt) 0) eqn:Ht.
  - apply Qle_bool_iff in Ht. exfalso. exact (Qlt_not_le _ _ Htarget Ht).
  - reflexivity.
Qed.

(** The end-to-end scenario of the spec: price 10, floor 0, target 100, at
    most 10 percent change.  Twice the target gives 11, a rate of zero
    gives 9. *)
Example CompleteEpoch_double_target :
  exists p', Pricer.CompleteEpoch (Pricer.NewPricer 10 0 (fun _ => 100) (1 # 10))
               (Float64.of_uint64 200) = (p', Ok (110 # 10)).
Proof. eexists. vm_compute. reflexivity. Qed.

Example CompleteEpoch_no_gas :
  exists p', Pricer.CompleteEpoch (Pricer.NewPricer 10 0 (fun _ => 100) (1 # 10))
               Float64.zero = (p', Ok (90 # 10)).
Proof. eexists. vm_compute. reflexivity. Qed.

(** Rejected inputs leave the Pricer as it was. *)
Example CompleteEpoch_rejects :
  let p := Pricer.NewPricer 10 0 (fun _ => 100) (1 # 10) in
  Pricer.CompleteEpoch p (S754_infinity false) = (p, Err Pricer.InvalidInput) /\
  Pricer.CompleteEpoch p S754_nan = (p, Err Pricer.InvalidInput) /\
  Pricer.CompleteEpoch p (SFopp (Float64.of_uint64 1)) = (p, Err Pricer.InvalidInput) /\
  Pricer.CompleteEpoch (Pricer.NewPricer 10 0 (fun _ => 0) (1 # 10)) Float64.zero
  = (Pricer.NewPricer 10 0 (fun _ => 0) (1 # 10), Err Pricer.InvalidConfiguration).
Proof. cbv zeta. repeat split; vm_compute; reflexivity. Qed.

(** Price 1, floor 10, at most 10 percent change, rate on target: the new
    price is the floor, 10, above [1 * (1 + 1/10)]. *)
Lemma CompleteEpoch_floor_above_ceiling :
  let p := Pricer.NewPricer 1 10 (fun _ => 100) (1 # 10) in
  exists observed p' newPrice,
    Float64.to_Q (Float64.of_uint64 100) = Some observed /\
    0 <= observed /\
    0 < Pricer.targetRateFn p tt /\
    Pricer.CompleteEpoch p (Float64.of_uint64 100) = (p', Ok newPrice) /\
    ~ (newPrice <= Pricer.curPrice p * (1 + Pricer.maxPercentChangePerEpoch p)).
Proof.
  cbv zeta. eexists; eexists; eexists.
  split; [vm_compute; reflexivity | ].
  split; [vm_compute; discriminate | ].
  split; [vm_compute; reflexivity | ].
  split; [vm_compute; reflexivity | ].
  vm_compute. intros H; apply H; reflexivity.
Qed.

(** C6, as the steps of [CompleteEpoch] give it.  For a finite,
    non-negative observed rate and a target above zero, on a Pricer whose
    current price and bound on the change are not negative, [CompleteEpoch]
    succeeds, commits the price it returns, and that price is at least
    [floorPrice], at least [currentPrice * (1 - maxPercentChangePerEpoch)],
    and at most the larger of [floorPrice] and
    [currentPrice * (1 + maxPercentChangePerEpoch)]; it is at most the latter
    whenever the floor is. *)
Theorem CompleteEpoch_bounds (p : Pricer.GasPricer) (observedGasPerSecond : float64)
  (observed : Q) :
  Float64.to_Q observedGasPerSecond = Some observed ->
  0 <= observed ->
  0 < Pricer.targetRateFn p tt ->
  0 <= Pricer.curPrice p ->
  0 <= Pricer.maxPercentChangePerEpoch p ->
  let currentPrice := Pricer.curPrice p in
  let floorPrice := Pricer.floorPrice p in
  let maxPercentChangePerEpoch := Pricer.maxPercentChangePerEpoch p in
  exists p' newPrice,
    Pricer.CompleteEpoch p observedGasPerSecond = (p', Ok newPrice) /\
    Pricer.curPrice p' = newPrice /\
    floorPrice <= newPrice /\
    newPrice <= Qmax floorPrice (currentPrice * (1 + maxPercentChangePerEpoch)) /\
    (floorPrice <= currentPrice * (1 + maxPercentChangePerEpoch) ->
     newPrice <= currentPrice * (1 + maxPercentChangePerEpoch)) /\
    currentPrice * (1 - maxPercentChangePerEpoch) <= newPrice.
Proof.
  intros Hfin Hobs Htarget Hcur Hmax currentPrice floorPrice maxPercentChangePerEpoch.
  pose proof (CompleteEpoch_valid p observedGasPerSecond observed Hfin Hobs Htarget)
    as Hrun. cbv zeta in Hrun.
  set (clamped := Pricer.clamp (1 - Pricer.maxPercentChangePerEpoch p)
                    (1 + Pricer.maxPercentChangePerEpoch p)
                    (observed / Pricer.targetRateFn p tt)) in *.
  assert (Hhi : currentPrice * clamped <= currentPrice * (1 + maxPercentChangePerEpoch)).
  { apply Qmult_le_nonneg_l; [exact Hcur | apply clamp_upper]. }
  assert (Hlo : currentPrice * (1 - maxPercentChangePerEpoch) <= currentPrice * clamped).
  { apply Qmult_le_nonneg_l; [exact Hcur | ]. apply clamp_lower.
    unfold maxPercentChangePerEpoch.
    apply Qplus_le_r with (z := Pricer.maxPercentChangePerEpoch p - 1).
    ring_simplify.
    apply Qle_trans with (y := 0 + Pricer.maxPercentChangePerEpoch p).
    - rewrite Qplus_0_l. exact Hmax.
    - setoid_replace ((2 # 1) * Pricer.maxPercentChangePerEpoch p)
        with (Pricer.maxPercentChangePerEpoch p + Pricer.maxPercentChangePerEpoch p)
        by ring.
      apply Qplus_le_l. exact Hmax. }
  eexists; eexists. split; [exact Hrun | ].
  split; [reflexivity | ].
  fold currentPrice floorPrice.
  assert (Hceil : Qmax (currentPrice * clamped) floorPrice
                  <= Qmax floorPrice (currentPrice * (1 + maxPercentChangePerEpoch))).
  { apply Q.max_lub.
    - apply Qle_trans with (y := currentPrice * (1 + maxPercentChangePerEpoch));
        [exact Hhi | apply Q.le_max_r].
    - apply Q.le_max_l. }
  split; [apply Q.le_max_r | ].
  split; [exact Hceil | ].
  split.
  - intros Hfloor. apply Q.max_lub; [exact Hhi | exact Hfloor].
  - apply Qle_trans with (y := currentPrice * clamped);
      [exact Hlo | apply Q.le_max_l].
Qed.

(** Price 10, floor 0, target 100, observed 200. *)
Lemma CompleteEpoch_bounds_witness :
  exists p' newPrice,
    Pricer.CompleteEpoch (Pricer.NewPricer 10 0 (fun _ => 100) (1 # 10))
      (Float64.of_uint64 200) = (p', Ok newPrice) /\
    Pricer.curPrice p' = newPrice /\
    0 <= newPrice /\
    newPrice <= Qmax 0 (10 * (1 + (1 # 10))) /\
    (0 <= 10 * (1 + (1 # 10)) -> newPrice <= 10 * (1 + (1 # 10))) /\
    10 * (1 - (1 # 10)) <= newPrice.
Proof.
  apply (CompleteEpoch_bounds (Pricer.NewPricer 10 0 (fun _ => 100) (1 # 10))
           (Float64.of_uint64 200) (7036874417766400 # 35184372088832)).
  - vm_compute. reflexivity.
  - vm_compute. discriminate.
  - vm_compute. reflexivity.
  - vm_compute. discriminate.
  - vm_compute. discriminate.
Defined.

End PricerFacts.

(** ** The significance gate *)




(** ** Start and Loop *)

Section OracleFacts.

Context {W GasPricer price PrivateKey : Type}.
Context {ops : rollup.GasPricerOps GasPricer price}.
Context {crypto : oracle.Crypto PrivateKey}.

(** A failed [CompleteEpoch] comes out of [UpdateGasPrice] as its error,
    with the checkpoint where it was. *)
Lemma UpdateGasPrice_pricer_failure
  (u : rollup.GasPriceUpdater W GasPricer price) (s s1 : St W) (latestBlockNumber : Z)
  (averageGasPerSecond : float64) (p : GasPricer) (err : error) :
  rollup.getLatestBlockNumberFn u s = Value (Ok latestBlockNumber) s1 ->
  rollup.epochStartBlockNumber u <= latestBlockNumber ->
  rollup.GetAverageGasPerSecond (rollup.epochStartBlockNumber u) latestBlockNumber
    (rollup.epochLengthSeconds u) (rollup.averageBlockGasLimit u)
  = Some averageGasPerSecond ->
  rollup.CompleteEpoch (rollup.gasPricer u) averageGasPerSecond = (p, Err err) ->
  rollup.UpdateGasPrice u s = Value (rollup.set_gasPricer u p, Some err) s1.
Proof.
  intros Hget Hge Havg Hce. unfold rollup.UpdateGasPrice, bind, ret. rewrite Hget.
  destruct (Z.ltb_spec latestBlockNumber (rollup.epochStartBlockNumber u)); [lia | ].
  rewrite Havg, Hce. reflexivity.
Qed.

(** A tick whose [UpdateGasPrice] returns an error logs it and ends the
    iteration; the loop goes round again. *)
Lemma Loop_iteration_update_error
  (g : oracle.GasPriceOracle W GasPricer PrivateKey)
  (u u' : rollup.GasPriceUpdater W GasPricer price)
  (s s1 s2 : St W) (l2GasPrice : Z) (err : error) :
  oracle.GasPrice (oracle.contract g) (write_log LvlDebug "polling" [] s)
  = Value (Ok l2GasPrice) s1 ->
  rollup.UpdateGasPrice u s1 = Value (u', Some err) s2 ->
  oracle.Loop_iteration oracle.TimerTick (g, u) s
  = Value (g, u') (write_log LvlError "cannot update gas price" [err] s2).
Proof.
  intros Hprice Hupd.
  unfold oracle.Loop_iteration, bind, ret, log_Debug, log_Error.
  rewrite Hprice, Hupd. reflexivity.
Qed.

(** C7, as the code has it.  On a tick in which [CompleteEpoch] returns an
    error, [UpdateGasPrice] returns that error, and the loop logs it at
    level Error, leaves the checkpoint where it was, and takes the next
    event: it does not stop. *)
Theorem Loop_continues_after_pricer_failure
  (g : oracle.GasPriceOracle W GasPricer PrivateKey)
  (u : rollup.GasPriceUpdater W GasPricer price)
  (s s1 s2 : St W) (l2GasPrice latestBlockNumber : Z)
  (averageGasPerSecond : float64) (p : GasPricer) (err : error)
  (events : list oracle.Event) :
  oracle.GasPrice (oracle.contract g) (write_log LvlDebug "polling" [] s)
  = Value (Ok l2GasPrice) s1 ->
  rollup.getLatestBlockNumberFn u s1 = Value (Ok latestBlockNumber) s2 ->
  rollup.epochStartBlockNumber u <= latestBlockNumber ->
  rollup.GetAverageGasPerSecond (rollup.epochStartBlockNumber u) latestBlockNumber
    (rollup.epochLengthSeconds u) (rollup.averageBlockGasLimit u)
  = Some averageGasPerSecond ->
  rollup.CompleteEpoch (rollup.gasPricer u) averageGasPerSecond = (p, Err err) ->
  let u' := rollup.set_gasPricer u p in
  let s' := write_log LvlError "cannot update gas price" [err] s2 in
  oracle.Loop_iteration oracle.TimerTick (g, u) s = Value (g, u') s' /\
  rollup.epochStartBlockNumber u' = rollup.epochStartBlockNumber u /\
  oracle.Loop_for (oracle.TimerTick :: events) (g, u) s
  = oracle.Loop_for events (g, u') s'.
Proof.
  intros Hprice Hget Hge Havg Hce u' s'.
  pose proof (UpdateGasPrice_pricer_failure u s1 s2 latestBlockNumber
                averageGasPerSecond p err Hget Hge Havg Hce) as Hupd.
  pose proof (Loop_iteration_update_error g u u' s s1 s2 l2GasPrice err Hprice Hupd)
    as Hiter.
  split; [exact Hiter | ].
  split; [reflexivity | ].
  cbn [oracle.Loop_for]. unfold bind at 1. rewrite Hiter. reflexivity.
Qed.

(** C8, as the code has it.  [Start] returns [errNoChainID] without a chain
    id, [errNoPrivateKey] without a key, and the error of the [Owner] call
    when that fails; with a chain id, a key and an owner whose address
    differs from the key's it returns [errInvalidSigningKey].  In all four
    cases the loop is not launched.  The loop is launched, and [nil]
    returned, only when chain id and key are present and the address of the
    key is the owner. *)
Theorem Start_checks_owner (g : oracle.GasPriceOracle W GasPricer PrivateKey) (s : St W) :
  let s0 := write_log LvlInfo "Starting Gas Price Oracle" [] s in
  (oracle.chainID (oracle.config g) = None ->
   oracle.Start g s = Value (Some oracle.errNoChainID, false) s) /\
  (forall c,
      oracle.chainID (oracle.config g) = Some c ->
      oracle.privateKey (oracle.config g) = None ->
      oracle.Start g s = Value (Some oracle.errNoPrivateKey, false) s) /\
  (forall c key err s1,
      oracle.chainID (oracle.config g) = Some c ->
      oracle.privateKey (oracle.config g) = Some key ->
      oracle.Owner (oracle.contract g) s0 = Value (Err err) s1 ->
      oracle.Start g s = Value (Some err, false) s1) /\
  (forall c key owner s1,
      oracle.chainID (oracle.config g) = Some c ->
      oracle.privateKey (oracle.config g) = Some key ->
      oracle.Owner (oracle.contract g) s0 = Value (Ok owner) s1 ->
      oracle.PubkeyToAddress key <> owner ->
      oracle.Start g s
      = Value (Some oracle.errInvalidSigningKey, false)
          (write_log LvlError "Signing key does not match contract owner" [] s1)) /\
  (forall e s',
      oracle.Start g s = Value (e, true) s' ->
      e = None /\
      exists c key,
        oracle.chainID (oracle.config g) = Some c /\
        oracle.privateKey (oracle.config g) = Some key /\
        oracle.Owner (oracle.contract g) s0 = Value (Ok (oracle.PubkeyToAddress key)) s').
Proof.
  intros s0. subst s0. unfold oracle.Start, bind, ret, log_Info, log_Error.
  split; [ | split; [ | split; [ | split]]].
  - intros Hc. rewrite Hc. reflexivity.
  - intros c Hc Hk. rewrite Hc, Hk. reflexivity.
  - intros c key err s1 Hc Hk Ho. rewrite Hc, Hk, Ho. reflexivity.
  - intros c key owner s1 Hc Hk Ho Hne. rewrite Hc, Hk, Ho.
    destruct (Z.eqb_spec (oracle.PubkeyToAddress key) owner) as [E | _];
      [contradiction | reflexivity].
  - intros e s'.
    destruct (oracle.chainID (oracle.config g)) as [c | ]; [ | discriminate].
    destruct (oracle.privateKey (oracle.config g)) as [key | ]; [ | discriminate].
    destruct (oracle.Owner (oracle.contract g) _) as [[owner | err] s1 | s1 | s1];
      try discriminate.
    destruct (Z.eqb_spec (oracle.PubkeyToAddress key) owner) as [E | _]; cbn [negb].
    + intros H; inversion H; subst. split; [reflexivity | ]. exists c, key. auto.
    + discriminate.
Qed.

End OracleFacts.

(** A target of 0 makes every [CompleteEpoch] fail; two ticks log two
    errors and the loop still waits for the next event. *)
Lemma Loop_goes_on_after_pricer_failure :
  let g := Script.gpo (Some 420) (Some 7) in
  let u := Script.updater 0 in
  let s := Script.start (Script.chain_at [7; 8] false) in
  snd (rollup.CompleteEpoch (rollup.gasPricer u) (Float64.of_uint64 2200000))
  = Err Pricer.InvalidConfiguration /\
  exists s',
    oracle.Loop_for [oracle.TimerTick; oracle.TimerTick] (g, u) s = Value (g, u) s' /\
    map msg (logs s')
    = ["polling"; "cannot update gas price"; "polling"; "cannot update gas price"] /\
    map ctx (logs s')
    = [[]; [Pricer.InvalidConfiguration]; []; [Pricer.InvalidConfiguration]].
Proof.
  cbv zeta. split; [vm_compute; reflexivity | ].
  eexists. split; [vm_compute; reflexivity | ].
  split; vm_compute; reflexivity.
Qed.

(** One failing tick, then the rest of the events from the state it left. *)
Lemma Loop_continues_after_pricer_failure_witness :
  oracle.Loop_for [oracle.TimerTick; oracle.CtxDone]
    (Script.gpo (Some 420) (Some 7), Script.updater 0)
    (Script.start (Script.chain_at [7] false))
  = oracle.Loop_for [oracle.CtxDone]
      (Script.gpo (Some 420) (Some 7), Script.updater 0)
      (write_log LvlError "cannot update gas price" [Pricer.InvalidConfiguration]
         (write_log LvlDebug "polling" [] (Script.start (Script.chain_at [] false)))).
Proof.
  apply (Loop_continues_after_pricer_failure
           (Script.gpo (Some 420) (Some 7)) (Script.updater 0)
           (Script.start (Script.chain_at [7] false))
           (write_log LvlDebug "polling" [] (Script.start (Script.chain_at [7] false)))
           (write_log LvlDebug "polling" [] (Script.start (Script.chain_at [] false)))
           10 7 (Float64.of_uint64 2200000)
           (rollup.gasPricer (Script.updater 0)) Pricer.InvalidConfiguration
           [oracle.CtxDone]).
  - reflexivity.
  - reflexivity.
  - cbn. lia.
  - vm_compute. reflexivity.
  - vm_compute. reflexivity.
Defined.

(** A key whose address differs from the owner, and no chain id: the error
    is [errNoChainID].  The same key with a chain id, on a node whose
    [Owner] call fails: the error is that of the call. *)
Lemma Start_without_chain_id :
  let g := Script.gpo None (Some 5) in
  let s := Script.start (Script.chain_at [] false) in
  let g' := Script.gpo (Some 420) (Some 5) in
  let s' := Script.start {| Script.heights := [];
                            Script.owner := Err "connection refused";
                            Script.onchain := Ok 10;
                            Script.refuse := false;
                            Script.written := [] |} in
  oracle.privateKey (oracle.config g) = Some 5 /\
  Script.owner (world s) = Ok 1007 /\
  oracle.PubkeyToAddress 5 <> 1007 /\
  oracle.Start g s = Value (Some oracle.errNoChainID, false) s /\
  oracle.errNoChainID <> oracle.errInvalidSigningKey /\
  oracle.Start g' s'
  = Value (Some "connection refused", false)
      (write_log LvlInfo "Starting Gas Price Oracle" [] s') /\
  "connection refused" <> oracle.errInvalidSigningKey.
Proof.
  cbv zeta. repeat split; try reflexivity.
  - cbn. lia.
  - discriminate.
  - discriminate.
Qed.

(** Chain id 420, key 5 with address 1005, owner 1007. *)
Lemma Start_checks_owner_witness :
  oracle.Start (Script.gpo (Some 420) (Some 5)) (Script.start (Script.chain_at [] false))
  = Value (Some oracle.errInvalidSigningKey, false)
      (write_log LvlError "Signing key does not match contract owner" []
         (write_log LvlInfo "Starting Gas Price Oracle" []
            (Script.start (Script.chain_at [] false)))).
Proof.
  destruct (Start_checks_owner (Script.gpo (Some 420) (Some 5))
              (Script.start (Script.chain_at [] false)))
    as (_ & _ & _ & Hmismatch & _).
  apply (Hmismatch 420 5 1007).
  - reflexivity.
  - reflexivity.
  - reflexivity.
  - cbn. lia.
Defined.

(** ** NewConfig *)

Section ConfigFacts.

Context {W PrivateKey : Type} {crypto : oracle.Crypto PrivateKey}.

Ltac case_flag ctx f :=
  destruct (oracle.GlobalIsSet ctx (flags.Name f)) eqn:?.

(** C9, as the code has it.  [NewConfig] exits the process exactly when one
    of the target rate, the maximal change per epoch, the average block gas
    limit or the epoch length is not set, and never panics.  When it returns,
    the floor price is the flag's value or 0 when the flag is not set, and
    the significance factor is the flag's value or 0.05: the absence of
    either is not fatal. *)
Theorem NewConfig_fatal_iff (ctx : oracle.Context) (s : St W) :
  let given f := oracle.GlobalIsSet ctx (flags.Name f) in
  let run := oracle.NewConfig (PrivateKey := PrivateKey) ctx s in
  ((exists s', run = Exited s')
   <-> given flags.TargetGasPerSecondFlag = false \/
       given flags.MaxPercentChangePerEpochFlag = false \/
       given flags.AverageBlockGasLimitPerEpochFlag = false \/
       given flags.EpochLengthSecondsFlag = false) /\
  (forall s', run <> Panicked s') /\
  (forall cfg s', run = Value cfg s' ->
     oracle.floorPrice cfg
     = (if given flags.FloorPriceFlag
        then oracle.GlobalFloat64 ctx (flags.Name flags.FloorPriceFlag)
        else Float64.zero) /\
     oracle.significantFactor cfg
     = (if given flags.SignificantFactorFlag
        then oracle.GlobalFloat64 ctx (flags.Name flags.SignificantFactorFlag)
        else Float64.decimal 5 2)).
Proof.
  intros given run. subst given run.
  unfold oracle.NewConfig, bind, ret, log_Crit, log_Error.
  case_flag ctx flags.PrivateKeyFlag; [destruct (oracle.HexToECDSA _) | ];
    case_flag ctx flags.TargetGasPerSecondFlag;
    case_flag ctx flags.MaxPercentChangePerEpochFlag;
    case_flag ctx flags.AverageBlockGasLimitPerEpochFlag;
    case_flag ctx flags.EpochLengthSecondsFlag;
    (split; [split | split]);
    try (intros [s' H]; discriminate H);
    try (intros _; eexists; reflexivity);
    try (intros s' H; discriminate H);
    try (intros cfg s' H; discriminate H);
    try (intros cfg s' H; inversion H; subst; split; reflexivity);
    try (intros [H | [H | [H | H]]]; discriminate H);
    try (intros _; auto).
Qed.

End ConfigFacts.

(** Everything required but the floor price is set: a configuration comes
    back, with floor price 0. *)
Lemma NewConfig_without_floor_price :
  let ctx := Script.command_line
               [ "target-gas-per-second"; "max-percent-change-per-epoch";
                 "average-block-gas-limit-per-epoch"; "epoch-length-seconds" ] in
  let s := Script.start (Script.chain_at [] false) in
  oracle.GlobalIsSet ctx (flags.Name flags.FloorPriceFlag) = false /\
  exists cfg : oracle.Config Z,
    oracle.NewConfig ctx s = Value cfg s /\
    oracle.floorPrice cfg = Float64.zero.
Proof.
  cbv zeta. split; [reflexivity | ].
  eexists. split; [vm_compute; reflexivity | reflexivity].
Qed.

(** The epoch length is missing. *)
Lemma NewConfig_fatal_iff_witness :
  exists s',
    oracle.NewConfig (PrivateKey := Z)
      (Script.command_line
         [ "floor-price"; "target-gas-per-second"; "max-percent-change-per-epoch";
           "average-block-gas-limit-per-epoch"; "significant-factor" ])
      (Script.start (Script.chain_at [] false))
    = Exited s'.
Proof.
  apply (NewConfig_fatal_iff (PrivateKey := Z)
           (Script.command_line
              [ "floor-price"; "target-gas-per-second"; "max-percent-change-per-epoch";
                "average-block-gas-limit-per-epoch"; "significant-factor" ])
           (Script.start (Script.chain_at [] false))).
  right; right; right. reflexivity.
Defined.

(** * Part III: further properties of the code *)

(** ** GetAverageGasPerSecond, further *)

Lemma GetAverageGasPerSecond_no_blocks (s e a : Z) :
  e <> 0 -> rollup.GetAverageGasPerSecond s s e a = Some Float64.zero.
Proof.
  intros He.
  unfold rollup.GetAverageGasPerSecond, Uint64.div, Uint64.mul, Uint64.sub, Uint64.wrap.
  rewrite Z.sub_diag, Zmod_0_l.
  destruct (Z.eqb_spec e 0); [contradiction | ].
  rewrite Z.div_0_l by exact He. reflexivity.
Qed.

(** X4.  [GetAverageGasPerSecond] itself does not reject a latest block
    below the epoch start: the uint64 difference wraps to
    [2^64 - (start - latest)] and the rate is computed from that. *)
Theorem GetAverageGasPerSecond_wraps_below_start
  (epochStartBlockNumber latestBlockNumber
   epochLengthSeconds averageBlockGasLimit : Z) :
  Uint64.in_range epochStartBlockNumber ->
  Uint64.in_range latestBlockNumber ->
  latestBlockNumber < epochStartBlockNumber ->
  1 <= epochLengthSeconds ->
  rollup.GetAverageGasPerSecond epochStartBlockNumber latestBlockNumber
    epochLengthSeconds averageBlockGasLimit
  = Some (Float64.of_uint64
            (((2 ^ 64 - (epochStartBlockNumber - latestBlockNumber))
              * averageBlockGasLimit) mod 2 ^ 64 / epochLengthSeconds)).
Proof.
  intros [Hs0 Hs1] [Hl0 Hl1] Hlt He.
  unfold rollup.GetAverageGasPerSecond, Uint64.div, Uint64.mul, Uint64.sub,
    Uint64.wrap, Uint64.modulus in *.
  assert (Hwrap : (latestBlockNumber - epochStartBlockNumber) mod 2 ^ 64
                  = 2 ^ 64 - (epochStartBlockNumber - latestBlockNumber)).
  { symmetry. apply Z.mod_unique with (q := -1); lia. }
  rewrite Hwrap.
  destruct (Z.eqb_spec epochLengthSeconds 0); [lia | reflexivity].
Qed.

Lemma GetAverageGasPerSecond_wraps_below_start_witness :
  rollup.GetAverageGasPerSecond 5 3 1 1 = Some (Float64.of_uint64 (2 ^ 64 - 2)).
Proof.
  assert (R : forall x, 0 <= x < 2 ^ 64 -> Uint64.in_range x) by (intros x H; exact H).
  apply (GetAverageGasPerSecond_wraps_below_start 5 3 1 1);
    try (apply R); lia.
Defined.

(** X5.  As long as the product stays below [2^53], more blocks never give
    a smaller rate: the values returned for two heights are integers in the
    order of the heights. *)
Theorem GetAverageGasPerSecond_monotone
  (epochStartBlockNumber latest1 latest2
   epochLengthSeconds averageBlockGasLimit : Z) :
  0 <= epochStartBlockNumber <= latest1 ->
  latest1 <= latest2 ->
  1 <= epochLengthSeconds ->
  0 <= averageBlockGasLimit ->
  (latest2 - epochStartBlockNumber) * averageBlockGasLimit < 2 ^ 53 ->
  exists q1 q2 : Z,
    returns_value
      (rollup.GetAverageGasPerSecond epochStartBlockNumber latest1
         epochLengthSeconds averageBlockGasLimit) (inject_Z q1) /\
    returns_value
      (rollup.GetAverageGasPerSecond epochStartBlockNumber latest2
         epochLengthSeconds averageBlockGasLimit) (inject_Z q2) /\
    0 <= q1 <= q2.
Proof.
  intros Hs H12 He Ha Hsmall.
  set (p1 := (latest1 - epochStartBlockNumber) * averageBlockGasLimit).
  set (p2 := (latest2 - epochStartBlockNumber) * averageBlockGasLimit) in *.
  assert (Hp : 0 <= p1 <= p2) by (subst p1 p2; nia).
  assert (Hrate : forall l p,
             p = (l - epochStartBlockNumber) * averageBlockGasLimit ->
             0 <= p < 2 ^ 53 ->
             returns_value
               (rollup.GetAverageGasPerSecond epochStartBlockNumber l
                  epochLengthSeconds averageBlockGasLimit)
               (inject_Z (p / epochLengthSeconds))).
  { intros l p Hpe Hpr.
    assert (Hq : 0 <= p / epochLengthSeconds < 2 ^ 53).
    { split; [apply Z.div_pos; lia | ].
      apply Z.le_lt_trans with (m := p); [ | lia].
      apply Z.div_le_upper_bound; nia. }
    destruct (of_uint64_exact _ Hq) as (v & Hv & Hvq).
    exists (Float64.of_uint64 (p / epochLengthSeconds)), v.
    split; [ | split; assumption].
    unfold rollup.GetAverageGasPerSecond, Uint64.div, Uint64.mul, Uint64.sub,
      Uint64.wrap, Uint64.modulus.
    destruct (Z.eqb_spec epochLengthSeconds 0); [lia | ].
    assert (Hd : 0 <= l - epochStartBlockNumber \/ averageBlockGasLimit = 0) by nia.
    destruct Hd as [Hd | Hd].
    - assert (Hl : l - epochStartBlockNumber < 2 ^ 64 \/ averageBlockGasLimit = 0) by nia.
      destruct Hl as [Hl | Hl].
      + rewrite (Z.mod_small (l - epochStartBlockNumber)) by lia.
        rewrite <- Hpe. rewrite Z.mod_small by lia. reflexivity.
      + subst averageBlockGasLimit. rewrite Z.mul_0_r in *. subst p.
        rewrite Z.mod_0_l by lia. reflexivity.
    - subst averageBlockGasLimit. rewrite Z.mul_0_r in *. subst p.
      rewrite Z.mod_0_l by lia. reflexivity. }
  exists (p1 / epochLengthSeconds), (p2 / epochLengthSeconds).
  split; [apply (Hrate latest1 p1 eq_refl); lia | ].
  split; [apply (Hrate latest2 p2 eq_refl); lia | ].
  split; [apply Z.div_pos; lia | apply Z.div_le_mono; lia].
Qed.

Lemma GetAverageGasPerSecond_monotone_witness :
  exists q1 q2 : Z,
    returns_value (rollup.GetAverageGasPerSecond 5 7 10 11000000) (inject_Z q1) /\
    returns_value (rollup.GetAverageGasPerSecond 5 9 10 11000000) (inject_Z q2) /\
    0 <= q1 <= q2.
Proof.
  apply (GetAverageGasPerSecond_monotone 5 7 9 10 11000000); lia.
Defined.

(** ** NewGasPriceUpdater and UpdateGasPrice, further *)

Section UpdaterMore.

Context {W GasPricer price : Type} {ops : rollup.GasPricerOps GasPricer price}.

(** X6.  [NewGasPriceUpdater] on uint64 arguments: a gas limit below 1 is
    reported first, whatever the epoch length; then an epoch length below 1;
    both before the pricer pointer is looked at.  With both numbers valid, a
    nil pricer is a panic, and any other pricer gives an updater that holds
    exactly the six arguments. *)
Theorem NewGasPriceUpdater_result
  (gasPricer : option GasPricer)
  (epochStartBlockNumber averageBlockGasLimit epochLengthSeconds : Z)
  (getLatestBlockNumberFn : rollup.GetLatestBlockNumberFn W)
  (updateL2GasPriceFn : rollup.UpdateL2GasPriceFn W price) :
  Uint64.in_range epochStartBlockNumber ->
  let constructed :=
    rollup.NewGasPriceUpdater gasPricer epochStartBlockNumber averageBlockGasLimit
      epochLengthSeconds getLatestBlockNumberFn updateL2GasPriceFn in
  (averageBlockGasLimit < 1 ->
   constructed = Some (Err "averageBlockGasLimit cannot be less than 1 gas.")) /\
  (1 <= averageBlockGasLimit -> epochLengthSeconds < 1 ->
   constructed = Some (Err "epochLengthSeconds cannot be less than 1 second.")) /\
  (1 <= averageBlockGasLimit -> 1 <= epochLengthSeconds ->
   match gasPricer with
   | None => constructed = None
   | Some pricer =>
       exists g : rollup.GasPriceUpdater W GasPricer price,
         constructed = Some (Ok g) /\
         rollup.gasPricer g = pricer /\
         rollup.epochStartBlockNumber g = epochStartBlockNumber /\
         rollup.averageBlockGasLimit g = averageBlockGasLimit /\
         rollup.epochLengthSeconds g = epochLengthSeconds /\
         rollup.getLatestBlockNumberFn g = getLatestBlockNumberFn /\
         rollup.updateL2GasPriceFn g = updateL2GasPriceFn
   end).
Proof.
  intros [Hs0 _] constructed. subst constructed. unfold rollup.NewGasPriceUpdater.
  destruct (Z.ltb_spec epochStartBlockNumber 0) as [Hneg | _]; [lia | ].
  destruct (Z.ltb_spec averageBlockGasLimit 1) as [Ha | Ha];
    destruct (Z.ltb_spec epochLengthSeconds 1) as [He | He];
    (split; [ | split]); intros; try lia; try reflexivity.
  destruct gasPricer as [pricer | ]; [ | reflexivity].
  eexists. repeat split.
Qed.

(** X1.  A [nil] from [UpdateGasPrice] means that everything happened: the
    height was read and is not below the checkpoint, [CompleteEpoch]
    succeeded on the rate computed from it, the price handed to the write
    callback is the Pricer's current price after that, the write returned
    [nil], and the updater is left at the height read, with the Pricer as
    [CompleteEpoch] left it. *)
Theorem UpdateGasPrice_nil_return
  (g g' : rollup.GasPriceUpdater W GasPricer price) (s s' : St W) :
  rollup.UpdateGasPrice g s = Value (g', None) s' ->
  exists (latestBlockNumber : Z) (s1 : St W) (averageGasPerSecond : float64)
         (p : GasPricer) (newPrice : price),
    rollup.getLatestBlockNumberFn g s = Value (Ok latestBlockNumber) s1 /\
    rollup.epochStartBlockNumber g <= latestBlockNumber /\
    rollup.GetAverageGasPerSecond (rollup.epochStartBlockNumber g) latestBlockNumber
      (rollup.epochLengthSeconds g) (rollup.averageBlockGasLimit g)
    = Some averageGasPerSecond /\
    rollup.CompleteEpoch (rollup.gasPricer g) averageGasPerSecond = (p, Ok newPrice) /\
    rollup.updateL2GasPriceFn g (rollup.curPrice p) s1 = Value None s' /\
    g' = rollup.set_epochStartBlockNumber (rollup.set_gasPricer g p) latestBlockNumber.
Proof.
  unfold rollup.UpdateGasPrice, bind, ret, panic.
  destruct (rollup.getLatestBlockNumberFn g s) as [[latest | err] s1 | s1 | s1];
    try discriminate.
  destruct (Z.ltb_spec latest (rollup.epochStartBlockNumber g)) as [Hlt | Hge];
    try discriminate.
  destruct (rollup.GetAverageGasPerSecond _ _ _ _) as [avg | ] eqn:Havg;
    try discriminate.
  destruct (rollup.CompleteEpoch (rollup.gasPricer g) avg) as [p [newPrice | err]] eqn:Hce;
    try discriminate.
  cbn.
  destruct (rollup.updateL2GasPriceFn g (rollup.curPrice p) s1)
    as [[err | ] s2 | s2 | s2] eqn:Hupd; try discriminate.
  intros H; inversion H; subst.
  exists latest, s1, avg, p, newPrice. repeat split; auto.
Qed.

(** X2.  An error from [UpdateGasPrice] has one of four origins: the height
    read failed; the height is below the checkpoint; [CompleteEpoch] failed;
    the price write failed.  In the first three the checkpoint is where it
    was and the world is as the height read left it: nothing was written.
    Only in the last has the checkpoint moved, to the height read. *)
Theorem UpdateGasPrice_error_return
  (g g' : rollup.GasPriceUpdater W GasPricer price) (s s' : St W) (err : error) :
  rollup.UpdateGasPrice g s = Value (g', Some err) s' ->
  (rollup.getLatestBlockNumberFn g s = Value (Err err) s' /\ g' = g) \/
  (exists latestBlockNumber,
      rollup.getLatestBlockNumberFn g s = Value (Ok latestBlockNumber) s' /\
      latestBlockNumber < rollup.epochStartBlockNumber g /\
      g' = g) \/
  (exists latestBlockNumber averageGasPerSecond p,
      rollup.getLatestBlockNumberFn g s = Value (Ok latestBlockNumber) s' /\
      rollup.epochStartBlockNumber g <= latestBlockNumber /\
      rollup.GetAverageGasPerSecond (rollup.epochStartBlockNumber g) latestBlockNumber
        (rollup.epochLengthSeconds g) (rollup.averageBlockGasLimit g)
      = Some averageGasPerSecond /\
      rollup.CompleteEpoch (rollup.gasPricer g) averageGasPerSecond = (p, Err err) /\
      g' = rollup.set_gasPricer g p /\
      rollup.epochStartBlockNumber g' = rollup.epochStartBlockNumber g) \/
  (exists latestBlockNumber s1 averageGasPerSecond p newPrice,
      rollup.getLatestBlockNumberFn g s = Value (Ok latestBlockNumber) s1 /\
      rollup.epochStartBlockNumber g <= latestBlockNumber /\
      rollup.GetAverageGasPerSecond (rollup.epochStartBlockNumber g) latestBlockNumber
        (rollup.epochLengthSeconds g) (rollup.averageBlockGasLimit g)
      = Some averageGasPerSecond /\
      rollup.CompleteEpoch (rollup.gasPricer g) averageGasPerSecond = (p, Ok newPrice) /\
      rollup.updateL2GasPriceFn g (rollup.curPrice p) s1 = Value (Some err) s' /\
      g' = rollup.set_epochStartBlockNumber (rollup.set_gasPricer g p) latestBlockNumber).
Proof.
  unfold rollup.UpdateGasPrice, bind, ret, panic.
  destruct (rollup.getLatestBlockNumberFn g s) as [[latest | e0] s1 | s1 | s1];
    try discriminate.
  - destruct (Z.ltb_spec latest (rollup.epochStartBlockNumber g)) as [Hlt | Hge].
    + intros H; inversion H; subst. right; left. exists latest. auto.
    + destruct (rollup.GetAverageGasPerSecond _ _ _ _) as [avg | ] eqn:Havg;
        try discriminate.
      destruct (rollup.CompleteEpoch (rollup.gasPricer g) avg)
        as [p [newPrice | e1]] eqn:Hce.
      * cbn.
        destruct (rollup.updateL2GasPriceFn g (rollup.curPrice p) s1)
          as [[e2 | ] s2 | s2 | s2] eqn:Hupd; try discriminate.
        intros H; inversion H; subst. right; right; right.
        exists latest, s1, avg, p, newPrice. repeat split; auto.
      * intros H; inversion H; subst. right; right; left.
        exists latest, avg, p. repeat split; auto.
  - intros H; inversion H; subst. left. auto.
Qed.

(** X3.  A call that reads the very height of the checkpoint hands
    [CompleteEpoch] a rate of exactly zero, whatever the gas limit: its
    outcome is that of [CompleteEpoch] at zero, followed by the write.  So
    after a call whose write failed, a second call at the same height does
    not see the epoch's rate again. *)
Theorem UpdateGasPrice_empty_epoch
  (g : rollup.GasPriceUpdater W GasPricer price) (s s1 : St W)
  (p : GasPricer) (r : result price) :
  rollup.getLatestBlockNumberFn g s
  = Value (Ok (rollup.epochStartBlockNumber g)) s1 ->
  rollup.epochLengthSeconds g <> 0 ->
  rollup.CompleteEpoch (rollup.gasPricer g) Float64.zero = (p, r) ->
  match r with
  | Err err => rollup.UpdateGasPrice g s = Value (rollup.set_gasPricer g p, Some err) s1
  | Ok _ =>
      forall (written : option error) (s2 : St W),
        rollup.updateL2GasPriceFn g (rollup.curPrice p) s1 = Value written s2 ->
        rollup.UpdateGasPrice g s
        = Value (rollup.set_epochStartBlockNumber (rollup.set_gasPricer g p)
                   (rollup.epochStartBlockNumber g), written) s2
  end.
Proof.
  intros Hget He Hce. unfold rollup.UpdateGasPrice, bind, ret. rewrite Hget.
  rewrite Z.ltb_irrefl.
  rewrite (GetAverageGasPerSecond_no_blocks _ _ _ He), Hce.
  destruct r as [newPrice | err]; [ | reflexivity].
  intros written s2 Hupd. cbn. rewrite Hupd. destruct written; reflexivity.
Qed.

End UpdaterMore.

(** A nil pricer: with a gas limit of 0 the error comes first, with valid
    numbers the call panics. *)
Lemma NewGasPriceUpdater_result_witness :
  rollup.NewGasPriceUpdater (W := Script.Chain) (GasPricer := Pricer.GasPricer)
    None 5 0 0 Script.getLatest Script.update
  = Some (Err "averageBlockGasLimit cannot be less than 1 gas.") /\
  rollup.NewGasPriceUpdater (W := Script.Chain) (GasPricer := Pricer.GasPricer)
    None 5 11000000 10 Script.getLatest Script.update
  = None.
Proof.
  assert (R : Uint64.in_range 5) by (unfold Uint64.in_range, Uint64.modulus; lia).
  split.
  - apply (NewGasPriceUpdater_result (W := Script.Chain) (GasPricer := Pricer.GasPricer)
             None 5 0 0 Script.getLatest Script.update R).
    lia.
  - destruct (NewGasPriceUpdater_result (W := Script.Chain)
                (GasPricer := Pricer.GasPricer)
                None 5 11000000 10 Script.getLatest Script.update R)
      as (_ & _ & Hnil).
    apply Hnil; lia.
Defined.

Lemma UpdateGasPrice_nil_return_witness :
  exists (latestBlockNumber : Z) (s1 : St Script.Chain)
         (averageGasPerSecond : float64) (p : Pricer.GasPricer) (newPrice : Q),
    rollup.getLatestBlockNumberFn (Script.updater 100)
      (Script.start (Script.chain_at [7] false)) = Value (Ok latestBlockNumber) s1 /\
    5 <= latestBlockNumber /\
    rollup.GetAverageGasPerSecond 5 latestBlockNumber 10 11000000
    = Some averageGasPerSecond /\
    rollup.CompleteEpoch (rollup.gasPricer (Script.updater 100)) averageGasPerSecond
    = (p, Ok newPrice) /\
    rollup.updateL2GasPriceFn (Script.updater 100) (rollup.curPrice p) s1
    = Value None
        {| world := {| Script.heights := []; Script.owner := Ok 1007;
                       Script.onchain := Ok 10; Script.refuse := false;
                       Script.written := [110 # 10] |};
           logs := [] |} /\
    rollup.set_epochStartBlockNumber
      (rollup.set_gasPricer (Script.updater 100)
         (fst (Pricer.CompleteEpoch (rollup.gasPricer (Script.updater 100))
                 (Float64.of_uint64 2200000)))) 7
    = rollup.set_epochStartBlockNumber (rollup.set_gasPricer (Script.updater 100) p)
        latestBlockNumber.
Proof.
  apply (UpdateGasPrice_nil_return (Script.updater 100)
           (rollup.set_epochStartBlockNumber
              (rollup.set_gasPricer (Script.updater 100)
                 (fst (Pricer.CompleteEpoch (rollup.gasPricer (Script.updater 100))
                         (Float64.of_uint64 2200000)))) 7)
           (Script.start (Script.chain_at [7] false))).
  vm_compute. reflexivity.
Defined.

Lemma UpdateGasPrice_error_return_witness :
  rollup.getLatestBlockNumberFn (Script.updater 100)
    (Script.start (Script.chain_at [] false))
  = Value (Err "no header") (Script.start (Script.chain_at [] false)).
Proof.
  destruct (UpdateGasPrice_error_return (Script.updater 100) (Script.updater 100)
              (Script.start (Script.chain_at [] false))
              (Script.start (Script.chain_at [] false)) "no header" eq_refl)
    as [[H _] | [(l & H & _) | [(l & a & p & H & _) | (l & s1 & a & p & n & H & _)]]].
  - exact H.
  - discriminate H.
  - discriminate H.
  - discriminate H.
Defined.

Lemma UpdateGasPrice_empty_epoch_witness :
  rollup.UpdateGasPrice (Script.updater 100) (Script.start (Script.chain_at [5] true))
  = Value (rollup.set_epochStartBlockNumber
             (rollup.set_gasPricer (Script.updater 100)
                (fst (Pricer.CompleteEpoch (rollup.gasPricer (Script.updater 100))
                        Float64.zero))) 5, Some "write refused")
      (Script.start (Script.chain_at [] true)).
Proof.
  assert (Hget : rollup.getLatestBlockNumberFn (Script.updater 100)
                   (Script.start (Script.chain_at [5] true))
                 = Value (Ok (rollup.epochStartBlockNumber (Script.updater 100)))
                     (Script.start (Script.chain_at [] true))) by reflexivity.
  assert (Hlen : rollup.epochLengthSeconds (Script.updater 100) <> 0) by (cbn; lia).
  assert (Hce : rollup.CompleteEpoch (rollup.gasPricer (Script.updater 100)) Float64.zero
                = (fst (Pricer.CompleteEpoch (rollup.gasPricer (Script.updater 100))
                          Float64.zero), Ok (90 # 10)%Q))
    by (vm_compute; reflexivity).
  apply (UpdateGasPrice_empty_epoch (Script.updater 100)
           (Script.start (Script.chain_at [5] true))
           (Script.start (Script.chain_at [] true)) _ _ Hget Hlen Hce).
  reflexivity.
Defined.

(** ** Loop, further *)

Section LoopMore.

Context {W GasPricer price PrivateKey : Type}.
Context {ops : rollup.GasPricerOps GasPricer price}.

(** With callbacks that answer and a non-zero epoch length,
    [UpdateGasPrice] comes back. *)
Lemma UpdateGasPrice_answers (u : rollup.GasPriceUpdater W GasPricer price) :
  answers (rollup.getLatestBlockNumberFn u) ->
  (forall p, answers (rollup.updateL2GasPriceFn u p)) ->
  rollup.epochLengthSeconds u <> 0 ->
  answers (rollup.UpdateGasPrice u).
Proof.
  intros Hget Hupd He s.
  destruct (rollup.UpdateGasPrice u s) as [[u' e] s' | s' | s'] eqn:Hrun.
  - eauto.
  - exfalso. revert Hrun. unfold rollup.UpdateGasPrice, bind, ret, panic.
    destruct (Hget s) as (r & s1 & ->).
    destruct r as [latest | err]; try discriminate.
    destruct (latest <? rollup.epochStartBlockNumber u); try discriminate.
    destruct (rollup.GetAverageGasPerSecond _ _ _ _) as [avg | ]; try discriminate.
    destruct (rollup.CompleteEpoch (rollup.gasPricer u) avg) as [p [newPrice | err]];
      try discriminate.
    cbn. destruct (Hupd (rollup.curPrice p) s1) as (e & s2 & ->).
    destruct e; discriminate.
  - exfalso.
    destruct (UpdateGasPrice_panic_origin u s s' He Hrun) as [H | (p & s1 & H)].
    + destruct (Hget s) as (r & s1 & H'). congruence.
    + destruct (Hupd p s1) as (e & s2 & H'). congruence.
Qed.

(** A tick that ends with the loop still running has left the oracle as it
    was, and the updater either as it was or as one call of
    [UpdateGasPrice] left it. *)
Lemma Loop_tick_frame
  (g g' : oracle.GasPriceOracle W GasPricer PrivateKey)
  (u u' : rollup.GasPriceUpdater W GasPricer price) (s s' : St W) :
  oracle.Loop_iteration oracle.TimerTick (g, u) s = Value (g', u') s' ->
  g' = g /\ (u' = u \/ rollup.update_step u u').
Proof.
  unfold oracle.Loop_iteration, bind, ret, log_Debug, log_Error, log_Info.
  destruct (oracle.GasPrice (oracle.contract g) _) as [[l2 | err] s1 | s1 | s1];
    try discriminate.
  - destruct (rollup.UpdateGasPrice u s1) as [[u1 e] s2 | s2 | s2] eqn:Hupd;
      try discriminate.
    destruct e; intros H; inversion H; subst; split; auto;
      right; exists s1, s2; eauto.
  - intros H; inversion H; subst. auto.
Qed.

(** X7.  Read and write failures do not stop the loop.  If the contract
    read and the two callbacks of the updater always answer (with a value
    or with an error), the epoch length is not zero, and [ctx.Done()] is
    received at most once, on a channel that is still open, then after any
    number of events the loop is still running, on the same contract and
    configuration, with a checkpoint that is not below the one it started
    from. *)
Theorem Loop_survives_errors
  (events : list oracle.Event)
  (g : oracle.GasPriceOracle W GasPricer PrivateKey)
  (u : rollup.GasPriceUpdater W GasPricer price) (s : St W) :
  answers (oracle.GasPrice (oracle.contract g)) ->
  answers (rollup.getLatestBlockNumberFn u) ->
  (forall p, answers (rollup.updateL2GasPriceFn u p)) ->
  rollup.epochLengthSeconds u <> 0 ->
  (cancellations events + Nat.b2n (oracle.stop g) <= 1)%nat ->
  exists g' u' s',
    oracle.Loop_for events (g, u) s = Value (g', u') s' /\
    oracle.contract g' = oracle.contract g /\
    oracle.config g' = oracle.config g /\
    rollup.epochStartBlockNumber u <= rollup.epochStartBlockNumber u'.
Proof.
  revert g u s.
  induction events as [ | ev events IH]; intros g u s Hprice Hget Hupd He Hdone.
  - exists g, u, s. cbn. repeat split; reflexivity || lia.
  - cbn [oracle.Loop_for]. unfold bind at 1.
    destruct ev.
    + (* a tick *)
      assert (Htick : exists u1 s1,
                 oracle.Loop_iteration oracle.TimerTick (g, u) s = Value (g, u1) s1).
      { unfold oracle.Loop_iteration, bind, ret, log_Debug, log_Error, log_Info.
        destruct (Hprice (write_log LvlDebug "polling" [] s)) as (r & s1 & ->).
        destruct r as [l2 | err]; [ | eauto].
        destruct (UpdateGasPrice_answers u Hget Hupd He s1) as ([u1 e] & s2 & ->).
        destruct e; eauto. }
      destruct Htick as (u1 & s1 & Htick). rewrite Htick.
      destruct (Loop_tick_frame g g u u1 s s1 Htick) as [_ Hu].
      assert (Hframe :
        rollup.epochStartBlockNumber u <= rollup.epochStartBlockNumber u1 /\
        rollup.epochLengthSeconds u1 = rollup.epochLengthSeconds u /\
        rollup.getLatestBlockNumberFn u1 = rollup.getLatestBlockNumberFn u /\
        rollup.updateL2GasPriceFn u1 = rollup.updateL2GasPriceFn u).
      { destruct Hu as [-> | (sa & sb & e & Hstep)].
        - repeat split; reflexivity || lia.
        - apply UpdateGasPrice_frame in Hstep as (H1 & H2 & _ & H4 & H5). auto. }
      destruct Hframe as (Hle & Hlen & Hg & Hw).
      destruct (IH g u1 s1) as (g' & u' & s' & Hrun & Hc & Hcfg & Hle');
        try assumption.
      * rewrite Hg. exact Hget.
      * rewrite Hw. exact Hupd.
      * rewrite Hlen. exact He.
      * exists g', u', s'. repeat split; try assumption. lia.
    + (* cancellation *)
      cbn [cancellations] in Hdone.
      destruct (oracle.stop g) eqn:Hstop; cbn [Nat.b2n] in Hdone; [lia | ].
      unfold oracle.Loop_iteration, oracle.Stop, bind, ret. rewrite Hstop.
      match goal with
      | |- context [oracle.Loop_for events (?g1, u) s] =>
          destruct (IH g1 u s) as (g' & u' & s' & Hrun & Hc & Hcfg & Hle');
            try assumption
      end.
      * cbn. lia.
      * exists g', u', s'. repeat split; assumption.
Qed.

(** X8.  The loop does not outlive a second receive from [ctx.Done()]:
    [Stop] closes a channel that is already closed.  Whatever the other
    events and the collaborators do, a run in which the channel is closed
    twice does not end with the loop still running. *)
Theorem Loop_second_cancellation
  (events : list oracle.Event)
  (g : oracle.GasPriceOracle W GasPricer PrivateKey)
  (u : rollup.GasPriceUpdater W GasPricer price) (s : St W) :
  (2 <= cancellations events + Nat.b2n (oracle.stop g))%nat ->
  forall l' s', oracle.Loop_for events (g, u) s <> Value l' s'.
Proof.
  revert g u s.
  induction events as [ | ev events IH]; intros g u s Hdone l' s'.
  - cbn in Hdone. destruct (oracle.stop g); cbn in Hdone; lia.
  - cbn [oracle.Loop_for]. unfold bind at 1.
    destruct ev.
    + destruct (oracle.Loop_iteration oracle.TimerTick (g, u) s)
        as [[g1 u1] s1 | s1 | s1] eqn:Htick; try discriminate.
      destruct (Loop_tick_frame g g1 u u1 s s1 Htick) as [-> _].
      apply IH. exact Hdone.
    + unfold oracle.Loop_iteration, oracle.Stop, bind, ret, panic.
      destruct (oracle.stop g) eqn:Hstop; [discriminate | ].
      apply IH. cbn in *. lia.
Qed.

(** X9.  A tick on which the contract's price cannot be read is skipped:
    the error is logged and the updater is not called, so its checkpoint
    and the chain's height are not touched.  A tick on which
    [UpdateGasPrice] returns [nil] logs the update and carries the updater
    on. *)
Theorem Loop_tick_outcomes
  (g : oracle.GasPriceOracle W GasPricer PrivateKey)
  (u : rollup.GasPriceUpdater W GasPricer price) (s s1 : St W) :
  (forall err,
      oracle.GasPrice (oracle.contract g) (write_log LvlDebug "polling" [] s)
      = Value (Err err) s1 ->
      oracle.Loop_iteration oracle.TimerTick (g, u) s
      = Value (g, u) (write_log LvlError "cannot get gas price" [err] s1)) /\
  (forall l2GasPrice u' s2,
      oracle.GasPrice (oracle.contract g) (write_log LvlDebug "polling" [] s)
      = Value (Ok l2GasPrice) s1 ->
      rollup.UpdateGasPrice u s1 = Value (u', None) s2 ->
      oracle.Loop_iteration oracle.TimerTick (g, u) s
      = Value (g, u') (write_log LvlInfo "Updated gas price" [] s2)).
Proof.
  unfold oracle.Loop_iteration, bind, ret, log_Debug, log_Error, log_Info.
  split.
  - intros err ->. reflexivity.
  - intros l2 u' s2 -> ->. reflexivity.
Qed.

Context {deps : oracle.LoopDeps W GasPricer price PrivateKey}.

(** An epoch shorter than a second, either side of zero, truncates to a
    ticker period of 0. *)
Lemma ticker_period_below_second
  (g : oracle.GasPriceOracle W GasPricer PrivateKey) (q : Q) :
  Float64.to_Q (oracle.epochLengthSeconds (oracle.config g)) = Some q ->
  (- (1) < q)%Q -> (q < 1)%Q ->
  oracle.ticker_period g = 0.
Proof.
  intros Hq Hlo Hhi.
  unfold oracle.ticker_period, time.Duration. rewrite Hq.
  unfold Qlt in Hlo, Hhi. cbn in Hlo, Hhi.
  assert (Hz : Z.quot (Qnum q) (Z.pos (Qden q)) = 0)
    by (apply Z.quot_small_iff; lia).
  rewrite Hz. reflexivity.
Qed.

(** An epoch of [n] whole seconds, up to the 9223372036 that an int64 of
    nanoseconds can hold, gives a ticker period of [n] seconds. *)
Lemma ticker_period_whole_seconds
  (g : oracle.GasPriceOracle W GasPricer PrivateKey) (n : Z) :
  1 <= n <= 9223372036 ->
  oracle.epochLengthSeconds (oracle.config g) = Float64.of_uint64 n ->
  oracle.ticker_period g = n * time.Second.
Proof.
  intros Hn He.
  destruct (of_uint64_exact n) as (v & Hv & Hvn); [lia | ].
  unfold oracle.ticker_period, time.Duration. rewrite He, Hv.
  unfold Qeq, inject_Z in Hvn. cbn [Qnum Qden] in Hvn.
  assert (Hz : Z.quot (Qnum v) (Z.pos (Qden v)) = n).
  { replace (Qnum v) with (n * Z.pos (Qden v)) by lia.
    apply Z.quot_mul. lia. }
  rewrite Hz.
  replace ((- 2 ^ 63 <=? n) && (n <? 2 ^ 63)) with true
    by (symmetry; apply andb_true_iff; split;
        [apply Z.leb_le | apply Z.ltb_lt]; lia).
  unfold time.int64_wrap, time.Second.
  rewrite Z.mod_small by lia. lia.
Qed.

(** X10.  Before its first tick [Loop] is not forgiving: if the tip cannot
    be fetched, or the price-write wrapper cannot be built, the process
    exits through [log.Crit], whatever events were to come.  After that the
    ticker is made, of period the epoch length cut to whole seconds: a
    period that is not positive panics, with no further log line, and with a
    positive one the loop starts on an updater built from the low 64 bits of
    the tip.  An epoch length strictly between -1 and 1 second gives the
    period 0, so the panic; [n] whole seconds, from 1 to 9223372036, give
    the period of [n] seconds. *)
Theorem Loop_setup
  (g : oracle.GasPriceOracle W GasPricer PrivateKey)
  (events : list oracle.Event) (s s1 : St W) :
  (forall err,
      oracle.HeaderByNumber (oracle.backend g) s = Value (Err err) s1 ->
      oracle.Loop g events s = Exited (write_log LvlCrit "Cannot fetch tip" [err] s1)) /\
  (forall tip err,
      oracle.HeaderByNumber (oracle.backend g) s = Value (Ok tip) s1 ->
      oracle.wrapUpdateL2GasPriceFn (oracle.backend g) (oracle.config g) = Err err ->
      oracle.Loop g events s = Exited (write_log LvlCrit "error" [err] s1)) /\
  (forall tip updateL2GasPriceFn,
      oracle.HeaderByNumber (oracle.backend g) s = Value (Ok tip) s1 ->
      oracle.wrapUpdateL2GasPriceFn (oracle.backend g) (oracle.config g)
      = Ok updateL2GasPriceFn ->
      oracle.ticker_period g <= 0 ->
      oracle.Loop g events s = Panicked s1) /\
  (forall tip updateL2GasPriceFn,
      oracle.HeaderByNumber (oracle.backend g) s = Value (Ok tip) s1 ->
      oracle.wrapUpdateL2GasPriceFn (oracle.backend g) (oracle.config g)
      = Ok updateL2GasPriceFn ->
      0 < oracle.ticker_period g ->
      oracle.Loop g events s
      = oracle.Loop_for events
          (g, oracle.gasprices_NewGasPriceUpdater (oracle.gasPricer g)
                (Float64.of_uint64 (Uint64.wrap tip))
                (oracle.averageBlockGasLimitPerEpoch (oracle.config g))
                (oracle.epochLengthSeconds (oracle.config g))
                (oracle.wrapGetLatestBlockNumberFn (oracle.backend g))
                updateL2GasPriceFn) s1) /\
  (forall q,
      Float64.to_Q (oracle.epochLengthSeconds (oracle.config g)) = Some q ->
      (- (1) < q)%Q -> (q < 1)%Q ->
      oracle.ticker_period g = 0) /\
  (forall n,
      1 <= n <= 9223372036 ->
      oracle.epochLengthSeconds (oracle.config g) = Float64.of_uint64 n ->
      oracle.ticker_period g = n * time.Second).
Proof.
  split; [ | split; [ | split; [ | split; [ | split]]]].
  - intros err H. unfold oracle.Loop, bind, log_Crit. rewrite H. reflexivity.
  - intros tip err H Hw. unfold oracle.Loop, bind, log_Crit.
    rewrite H, Hw. reflexivity.
  - intros tip upd H Hw Hp. unfold oracle.Loop, bind, time.NewTicker, panic.
    rewrite H, Hw.
    replace (oracle.ticker_period g <=? 0) with true
      by (symmetry; apply Z.leb_le; exact Hp).
    reflexivity.
  - intros tip upd H Hw Hp. unfold oracle.Loop, bind, time.NewTicker, ret.
    rewrite H, Hw.
    replace (oracle.ticker_period g <=? 0) with false
      by (symmetry; apply Z.leb_gt; exact Hp).
    reflexivity.
  - apply ticker_period_below_second.
  - apply ticker_period_whole_seconds.
Qed.

End LoopMore.

(** ** NewConfig, further *)

Lemma substring_whole (k : string) : String.substring 0 (String.length k) k = k.
Proof. induction k as [ | c k IH]; [reflexivity | cbn; rewrite IH; reflexivity]. Qed.

Lemma trim_0x_prefixed (k : string) : trim_0x ("0x" ++ k) = k.
Proof.
  unfold trim_0x. cbn [append String.prefix String.length].
  repeat match goal with
  | |- context [Ascii.ascii_dec ?a ?b] =>
      destruct (Ascii.ascii_dec a b) as [_ | N]; [ | contradiction]
  end.
  cbn [String.prefix String.substring].
  assert (He : String.prefix "" k = true) by (destruct k; reflexivity).
  rewrite He.
  replace (S (S (String.length k)) - 2)%nat with (String.length k) by lia.
  apply substring_whole.
Qed.

Lemma trim_0x_plain (k : string) : String.prefix "0x" k = false -> trim_0x k = k.
Proof. unfold trim_0x. intros ->. reflexivity. Qed.

Section ConfigMore.

Context {W PrivateKey : Type} {crypto : oracle.Crypto PrivateKey}.

Ltac case_flag' ctx f :=
  destruct (oracle.GlobalIsSet ctx (flags.Name f)) eqn:?.

(** [NewConfig] returns only with the four required flags set. *)
Lemma NewConfig_value_inv (ctx : oracle.Context) (s s' : St W)
  (cfg : oracle.Config PrivateKey) :
  oracle.NewConfig ctx s = Value cfg s' ->
  first_missing ctx required_flags = None.
Proof.
  unfold oracle.NewConfig, bind, ret, log_Crit, log_Error, first_missing, required_flags.
  case_flag' ctx flags.PrivateKeyFlag; [destruct (oracle.HexToECDSA _) | ];
    case_flag' ctx flags.TargetGasPerSecondFlag;
    case_flag' ctx flags.MaxPercentChangePerEpochFlag;
    case_flag' ctx flags.AverageBlockGasLimitPerEpochFlag;
    case_flag' ctx flags.EpochLengthSecondsFlag;
    intros H; try discriminate H; reflexivity.
Qed.

(** The key of a configuration that [NewConfig] returns. *)
Lemma NewConfig_private_key_field (ctx : oracle.Context) (s s' : St W)
  (cfg : oracle.Config PrivateKey) :
  oracle.NewConfig ctx s = Value cfg s' ->
  oracle.privateKey cfg
  = if oracle.GlobalIsSet ctx (flags.Name flags.PrivateKeyFlag)
    then match oracle.HexToECDSA
                 (trim_0x (oracle.GlobalString ctx (flags.Name flags.PrivateKeyFlag)))
         with
         | Ok key => Some key
         | Err _ => None
         end
    else None.
Proof.
  unfold oracle.NewConfig, bind, ret, log_Crit, log_Error, trim_0x.
  case_flag' ctx flags.PrivateKeyFlag; [destruct (oracle.HexToECDSA _) | ];
    case_flag' ctx flags.TargetGasPerSecondFlag;
    case_flag' ctx flags.MaxPercentChangePerEpochFlag;
    case_flag' ctx flags.AverageBlockGasLimitPerEpochFlag;
    case_flag' ctx flags.EpochLengthSecondsFlag;
    intros H; try discriminate H; inversion H; reflexivity.
Qed.

(** X11.  When a required flag is missing, the critical record that
    [NewConfig] writes before exiting names the first missing one, in the
    order target rate, change per epoch, block gas limit, epoch length; the
    world is not touched. *)
Theorem NewConfig_names_first_missing
  (ctx : oracle.Context) (s : St W) (f : flags.Flag) :
  first_missing ctx required_flags = Some f ->
  exists s1 : St W,
    oracle.NewConfig (PrivateKey := PrivateKey) ctx s
    = Exited (write_log LvlCrit "Missing config option" [flags.Name f] s1) /\
    world s1 = world s.
Proof.
  unfold oracle.NewConfig, bind, ret, log_Crit, log_Error, first_missing, required_flags.
  case_flag' ctx flags.PrivateKeyFlag; [destruct (oracle.HexToECDSA _) | ];
    case_flag' ctx flags.TargetGasPerSecondFlag;
    case_flag' ctx flags.MaxPercentChangePerEpochFlag;
    case_flag' ctx flags.AverageBlockGasLimitPerEpochFlag;
    case_flag' ctx flags.EpochLengthSecondsFlag;
    intros H; try discriminate H; inversion H; subst f;
    eexists; split; reflexivity.
Qed.

(** X13.  A private key that does not parse is not fatal: [NewConfig] logs
    the error of [HexToECDSA] and, the required flags being set, returns a
    configuration without a key. *)
Theorem NewConfig_bad_private_key
  (ctx : oracle.Context) (s : St W) (err : error) :
  oracle.GlobalIsSet ctx (flags.Name flags.PrivateKeyFlag) = true ->
  oracle.HexToECDSA (trim_0x (oracle.GlobalString ctx (flags.Name flags.PrivateKeyFlag)))
  = Err err ->
  first_missing ctx required_flags = None ->
  exists cfg : oracle.Config PrivateKey,
    oracle.NewConfig ctx s
    = Value cfg (write_log LvlError "Option %q: %v"
                   [flags.Name flags.PrivateKeyFlag; err] s) /\
    oracle.privateKey cfg = None.
Proof.
  unfold oracle.NewConfig, bind, ret, log_Crit, log_Error, first_missing,
    required_flags, trim_0x.
  intros Hset Hkey. rewrite Hset, Hkey.
  case_flag' ctx flags.TargetGasPerSecondFlag;
    case_flag' ctx flags.MaxPercentChangePerEpochFlag;
    case_flag' ctx flags.AverageBlockGasLimitPerEpochFlag;
    case_flag' ctx flags.EpochLengthSecondsFlag;
    intros H; try discriminate H.
  eexists; split; reflexivity.
Qed.

(** X14.  [NewConfig] reads the value of a flag only if the flag is set:
    two command lines that set the same flags to the same values give the
    same outcome, whatever they hold (defaults included) for the flags that
    are not set. *)
Theorem NewConfig_ignores_unset_flags (ctx ctx' : oracle.Context) (s : St W) :
  same_flags ctx ctx' ->
  oracle.NewConfig (PrivateKey := PrivateKey) ctx' s = oracle.NewConfig ctx s.
Proof.
  intros Hsame. unfold oracle.NewConfig.
  repeat match goal with
  | |- context [oracle.GlobalIsSet ctx' ?n] =>
      let Hset := fresh "Hset" in
      let Hval := fresh "Hval" in
      destruct (Hsame n) as [Hset Hval];
      rewrite Hset;
      destruct (oracle.GlobalIsSet ctx n);
      [ destruct (Hval eq_refl) as (Hs & Hu & Hf); rewrite ?Hs, ?Hu, ?Hf;
        clear Hset Hval Hs Hu Hf
      | clear Hset Hval ]
  end; reflexivity.
Qed.

(** X12.  The private key is accepted with or without a leading [0x]:
    for a key that does not itself begin with [0x], both spellings give the
    same outcome. *)
Theorem NewConfig_private_key_prefix (ctx : oracle.Context) (k : string) (s : St W) :
  String.prefix "0x" k = false ->
  oracle.NewConfig (PrivateKey := PrivateKey) (with_private_key ctx ("0x" ++ k)) s
  = oracle.NewConfig (with_private_key ctx k) s.
Proof.
  intros Hk.
  pose proof (trim_0x_prefixed k) as H1. pose proof (trim_0x_plain k Hk) as H2.
  unfold trim_0x in H1, H2.
  unfold oracle.NewConfig.
  change (oracle.GlobalIsSet (with_private_key ctx ("0x" ++ k))) with
    (oracle.GlobalIsSet (with_private_key ctx k)).
  change (oracle.GlobalUint64 (with_private_key ctx ("0x" ++ k))) with
    (oracle.GlobalUint64 (with_private_key ctx k)).
  change (oracle.GlobalFloat64 (with_private_key ctx ("0x" ++ k))) with
    (oracle.GlobalFloat64 (with_private_key ctx k)).
  change (oracle.GlobalString (with_private_key ctx ("0x" ++ k))
            (flags.Name flags.EthereumHttpUrlFlag))
    with (oracle.GlobalString (with_private_key ctx k)
            (flags.Name flags.EthereumHttpUrlFlag)).
  change (oracle.GlobalString (with_private_key ctx ("0x" ++ k))
            (flags.Name flags.GasPriceOracleAddressFlag))
    with (oracle.GlobalString (with_private_key ctx k)
            (flags.Name flags.GasPriceOracleAddressFlag)).
  change (oracle.GlobalString (with_private_key ctx ("0x" ++ k))
            (flags.Name flags.PrivateKeyFlag)) with ("0x" ++ k).
  change (oracle.GlobalString (with_private_key ctx k)
            (flags.Name flags.PrivateKeyFlag)) with k.
  rewrite H1, H2. reflexivity.
Qed.

End ConfigMore.

(** ** NewGasPriceOracle and the action of main *)

Section StartupMore.

Context {W Client GasPricer PrivateKey : Type}.
Context {crypto : oracle.Crypto PrivateKey}.
Context {net : oracle_new.ClientDeps W Client GasPricer PrivateKey}.

(** What [Start] does on an oracle that has a chain id and a key: it logs,
    asks for the owner, and decides on the answer. *)
Lemma Start_with_id_and_key
  (g : oracle.GasPriceOracle W GasPricer PrivateKey) (c : Z) (key : PrivateKey)
  (s : St W) :
  oracle.chainID (oracle.config g) = Some c ->
  oracle.privateKey (oracle.config g) = Some key ->
  oracle.Start g s
  = match oracle.Owner (oracle.contract g)
            (write_log LvlInfo "Starting Gas Price Oracle" [] s) with
    | Value (Ok owner) s1 =>
        if oracle.PubkeyToAddress key =? owner then Value (None, true) s1
        else Value (Some oracle.errInvalidSigningKey, false)
               (write_log LvlError "Signing key does not match contract owner" [] s1)
    | Value (Err err) s1 => Value (Some err, false) s1
    | Exited s1 => Exited s1
    | Panicked s1 => Panicked s1
    end.
Proof.
  intros Hc Hk. unfold oracle.Start, bind, ret, log_Info, log_Error.
  rewrite Hc, Hk.
  destruct (oracle.Owner (oracle.contract g) _) as [[owner | err] s1 | s1 | s1];
    try reflexivity.
  destruct (oracle.PubkeyToAddress key =? owner); reflexivity.
Qed.

(** What a successful [NewGasPriceOracle] leaves behind. *)
Lemma NewGasPriceOracle_ok_inv
  (attempts : nat) (cfg cfg' : oracle.Config PrivateKey)
  (g : oracle.GasPriceOracle W GasPricer PrivateKey) (s s' : St W) :
  oracle_new.NewGasPriceOracle attempts cfg s = Value (Some (cfg', Ok g)) s' ->
  oracle.config g = cfg' /\
  oracle.stop g = false /\
  (exists key, oracle.privateKey cfg = Some key /\ oracle.privateKey cfg' = Some key) /\
  (exists c, oracle.chainID cfg' = Some c /\ oracle.oracle_chainID g = Some c) /\
  (cfg' = cfg \/
   exists c, oracle.chainID cfg = None /\ cfg' = oracle_new.set_chainID cfg c).
Proof.
  unfold oracle_new.NewGasPriceOracle, bind, ret, log_Info.
  destruct (oracle_new.Dial (oracle.ethereumHttpUrl cfg) s)
    as [[client | err] s1 | s1 | s1]; try discriminate.
  destruct (oracle_new.connect attempts client s1) as [[ | ] s2 | s2 | s2];
    try discriminate. cbn [negb].
  destruct (oracle_new.bindings_NewGasPriceOracle _ client) as [contract | err];
    try discriminate.
  destruct (oracle.GasPrice contract s2) as [[currentPrice | err] s3 | s3 | s3];
    try discriminate.
  destruct (oracle.chainID cfg) as [c | ] eqn:Hc.
  - destruct (oracle.privateKey cfg) as [key | ] eqn:Hk; try discriminate.
    intros H; inversion H; subst; clear H. cbn.
    repeat split; eauto.
  - destruct (oracle_new.ChainID client _) as [[c | err] s4 | s4 | s4];
      try discriminate.
    cbn [oracle_new.set_chainID oracle.privateKey].
    destruct (oracle.privateKey cfg) as [key | ] eqn:Hk; try discriminate.
    intros H; inversion H; subst; clear H. cbn.
    repeat split; eauto.
Qed.

(** X15.  A successful [NewGasPriceOracle] is the trace of its calls: the
    dial gave a client, the connection loop ended on an answer, the binding
    gave the contract, and the contract gave the price.  The oracle holds
    that contract, that client as its backend, a pricer made from the low
    64 bits of that price and the three pricing parameters of the
    configuration, an open stop channel, and the configuration as the call
    left it, whose key is the one passed in.  With a chain id configured,
    the oracle has that id, the configuration is untouched, and the last
    effect is the log of the starting price; with none, the client is asked
    once more, after the second log line, and its answer is the id of the
    oracle and the one written into the configuration, of which nothing
    else changes. *)
Theorem NewGasPriceOracle_result
  (attempts : nat) (cfg cfg' : oracle.Config PrivateKey)
  (g : oracle.GasPriceOracle W GasPricer PrivateKey) (s s' : St W) :
  oracle_new.NewGasPriceOracle attempts cfg s = Value (Some (cfg', Ok g)) s' ->
  exists (client : Client) (contract : oracle.GasPriceOracleCaller W)
         (currentPrice : Z) (s1 s2 s3 : St W),
    oracle_new.Dial (oracle.ethereumHttpUrl cfg) s = Value (Ok client) s1 /\
    oracle_new.connect attempts client s1 = Value true s2 /\
    oracle_new.bindings_NewGasPriceOracle (oracle.gasPriceOracleAddress cfg) client
    = Ok contract /\
    oracle.GasPrice contract s2 = Value (Ok currentPrice) s3 /\
    oracle.contract g = contract /\
    oracle.backend g = oracle_new.client_backend client /\
    oracle.gasPricer g
    = oracle_new.gasprices_NewGasPricer
        (Float64.of_uint64 (Uint64.wrap currentPrice))
        (oracle.floorPrice cfg)
        (fun _ => oracle.targetGasPerSecond cfg)
        (oracle.maxPercentChangePerEpoch cfg) /\
    oracle.stop g = false /\
    oracle.config g = cfg' /\
    (exists key, oracle.privateKey cfg = Some key /\ oracle.privateKey cfg' = Some key) /\
    match oracle.chainID cfg with
    | Some chainID =>
        oracle.oracle_chainID g = Some chainID /\
        cfg' = cfg /\
        s' = write_log LvlInfo "Starting gas price" [] s3
    | None =>
        exists chainID,
          oracle_new.ChainID client
            (write_log LvlInfo "ChainID unset, fetching remote" []
               (write_log LvlInfo "Starting gas price" [] s3))
          = Value (Ok chainID) s' /\
          oracle.oracle_chainID g = Some chainID /\
          cfg' = oracle_new.set_chainID cfg chainID
    end.
Proof.
  unfold oracle_new.NewGasPriceOracle, bind, ret, log_Info.
  destruct (oracle_new.Dial (oracle.ethereumHttpUrl cfg) s)
    as [[client | err] s1 | s1 | s1] eqn:Hdial; try discriminate.
  destruct (oracle_new.connect attempts client s1) as [[ | ] s2 | s2 | s2]
    eqn:Hconnect; try discriminate. cbn [negb].
  destruct (oracle_new.bindings_NewGasPriceOracle _ client) as [contract | err]
    eqn:Hbind; try discriminate.
  destruct (oracle.GasPrice contract s2) as [[currentPrice | err] s3 | s3 | s3]
    eqn:Hprice; try discriminate.
  destruct (oracle.chainID cfg) as [c | ] eqn:Hc.
  - destruct (oracle.privateKey cfg) as [key | ] eqn:Hk; try discriminate.
    intros H; inversion H; subst; clear H. cbn.
    exists client, contract, currentPrice, s1, s2, s3.
    repeat split; eauto.
  - destruct (oracle_new.ChainID client _) as [[c | err] s4 | s4 | s4] eqn:Hid;
      try discriminate.
    cbn [oracle_new.set_chainID oracle.privateKey].
    destruct (oracle.privateKey cfg) as [key | ] eqn:Hk; try discriminate.
    intros H; inversion H; subst; clear H. cbn.
    exists client, contract, currentPrice, s1, s2, s3.
    repeat split; eauto.
Qed.

(** X16.  On an oracle that [NewGasPriceOracle] returned, [Start] never
    stops at its two nil checks: it always asks for the owner, and when the
    answer comes it launches the loop if the key's address is the owner and
    returns [errInvalidSigningKey] if not. *)
Theorem Start_after_NewGasPriceOracle
  (attempts : nat) (cfg cfg' : oracle.Config PrivateKey)
  (g : oracle.GasPriceOracle W GasPricer PrivateKey) (s s' : St W) :
  oracle_new.NewGasPriceOracle attempts cfg s = Value (Some (cfg', Ok g)) s' ->
  exists key : PrivateKey,
    oracle.privateKey cfg = Some key /\
    forall (s0 s1 : St W) (owner : oracle.Address),
      oracle.Owner (oracle.contract g)
        (write_log LvlInfo "Starting Gas Price Oracle" [] s0)
      = Value (Ok owner) s1 ->
      oracle.Start g s0
      = if oracle.PubkeyToAddress key =? owner then Value (None, true) s1
        else Value (Some oracle.errInvalidSigningKey, false)
               (write_log LvlError "Signing key does not match contract owner" [] s1).
Proof.
  intros Hnew.
  destruct (NewGasPriceOracle_ok_inv _ _ _ _ _ _ Hnew)
    as (Hcfg & _ & (key & Hk & Hk') & (c & Hc & _) & _).
  exists key. split; [exact Hk | ].
  intros s0 s1 owner Howner.
  rewrite (Start_with_id_and_key g c key s0) by (rewrite Hcfg; assumption).
  rewrite Howner. reflexivity.
Qed.

Context {fmt : main.Fmt}.

(** X17.  The action of [main] reaches [gpo.Wait()] only on a command line
    without positional arguments that sets the four required flags and a
    private key, and only after the contract named as its owner the address
    of that key. *)
Theorem Action_serves_only_the_owner
  (attempts : nat) (args : list string) (ctx : oracle.Context)
  (gpo : oracle.GasPriceOracle W GasPricer PrivateKey) (s s' : St W) :
  main.Action attempts args ctx s = Value (Some (main.Waiting gpo)) s' ->
  args = [] /\
  first_missing ctx required_flags = None /\
  oracle.GlobalIsSet ctx (flags.Name flags.PrivateKeyFlag) = true /\
  exists (key : PrivateKey) (s0 : St W),
    oracle.HexToECDSA (trim_0x (oracle.GlobalString ctx (flags.Name flags.PrivateKeyFlag)))
    = Ok key /\
    oracle.privateKey (oracle.config gpo) = Some key /\
    oracle.Owner (oracle.contract gpo) s0 = Value (Ok (oracle.PubkeyToAddress key)) s'.
Proof.
  unfold main.Action. destruct args as [ | arg args]; [ | discriminate].
  unfold bind, ret.
  destruct (oracle.NewConfig ctx s) as [cfg s1 | s1 | s1] eqn:Hcfg; try discriminate.
  destruct (oracle_new.NewGasPriceOracle attempts cfg s1)
    as [[[cfg' [g | err]] | ] s2 | s2 | s2] eqn:Hnew; try discriminate.
  destruct (NewGasPriceOracle_ok_inv _ _ _ _ _ _ Hnew)
    as (Hg & _ & (key & Hk & Hk') & (c & Hc & _) & _).
  rewrite (Start_with_id_and_key g c key s2) by (rewrite Hg; assumption).
  destruct (oracle.Owner (oracle.contract g) _) as [[owner | err] s3 | s3 | s3] eqn:Hown;
    try discriminate.
  destruct (Z.eqb_spec (oracle.PubkeyToAddress key) owner) as [Heq | _];
    [ | discriminate].
  intros H; inversion H; subst gpo s' owner; clear H.
  split; [reflexivity | ].
  split; [exact (NewConfig_value_inv ctx s s1 cfg Hcfg) | ].
  pose proof (NewConfig_private_key_field ctx s s1 cfg Hcfg) as Hfield.
  rewrite Hk in Hfield.
  destruct (oracle.GlobalIsSet ctx (flags.Name flags.PrivateKeyFlag)); [ | discriminate].
  split; [reflexivity | ].
  destruct (oracle.HexToECDSA _) as [key' | err] eqn:Hhex; [ | discriminate].
  inversion Hfield; subst key'.
  exists key. eexists. split; [reflexivity | ].
  split; [rewrite Hg; exact Hk' | exact Hown].
Qed.

End StartupMore.

Section ConnectMore.

Context {W Client GasPricer PrivateKey : Type}.
Context {net : oracle_new.ClientDeps W Client GasPricer PrivateKey}.

Lemma connect_refused (attempts : nat) (client : Client) (s : St W) :
  refuses attempts client s ->
  exists s', oracle_new.connect attempts client s = Value false s'.
Proof.
  revert s. induction attempts as [ | n IH]; intros s Href.
  - exists s. reflexivity.
  - destruct Href as (err & s1 & Hcall & Hrest).
    destruct (IH s1 Hrest) as (s' & Hconn).
    exists s'. cbn [oracle_new.connect]. unfold bind. rewrite Hcall. exact Hconn.
Qed.

(** X18.  [NewGasPriceOracle] has no way out of its connection loop but a
    successful [ChainID] call: once the node is dialled, as long as the
    calls fail it neither returns nor gives up, whatever the configuration;
    a missing private key is not reported before the node answers. *)
Theorem NewGasPriceOracle_waits_for_node
  (attempts : nat) (cfg : oracle.Config PrivateKey) (client : Client) (s s1 : St W) :
  oracle_new.Dial (oracle.ethereumHttpUrl cfg) s = Value (Ok client) s1 ->
  refuses attempts client s1 ->
  exists s', oracle_new.NewGasPriceOracle attempts cfg s = Value None s'.
Proof.
  intros Hdial Href.
  destruct (connect_refused attempts client s1 Href) as (s' & Hconn).
  exists s'. unfold oracle_new.NewGasPriceOracle, bind. rewrite Hdial, Hconn.
  reflexivity.
Qed.

End ConnectMore.

(** Three attempts on a node that refuses five times, without a key. *)
Lemma NewGasPriceOracle_waits_for_node_witness :
  exists s',
    oracle_new.NewGasPriceOracle 3 (Script.config (Some 420) None) (Node.start 5)
    = Value None s'.
Proof.
  apply (NewGasPriceOracle_waits_for_node 3 (Script.config (Some 420) None) tt
           (Node.start 5) (Node.start 5)).
  - reflexivity.
  - cbn [refuses]. repeat (eexists; eexists; split; [reflexivity | ]). exact I.
Defined.

(** ** The scripted collaborators answer *)

Lemma Script_caller_answers : answers (oracle.GasPrice Script.caller).
Proof. intros s. eexists; eexists; reflexivity. Qed.

Lemma Script_getLatest_answers : answers Script.getLatest.
Proof.
  intros s. unfold Script.getLatest.
  destruct (Script.heights (world s)); eexists; eexists; reflexivity.
Qed.

Lemma Script_update_answers (p : Q) : answers (Script.update p).
Proof.
  intros s. unfold Script.update.
  destruct (Script.refuse (world s)); eexists; eexists; reflexivity.
Qed.

(** Two ticks, the second without a header to read, then a cancellation. *)
Lemma Loop_survives_errors_witness :
  exists g' u' s',
    oracle.Loop_for [oracle.TimerTick; oracle.TimerTick; oracle.CtxDone]
      (Script.gpo (Some 420) (Some 7), Script.updater 100)
      (Script.start (Script.chain_at [7] true))
    = Value (g', u') s' /\
    oracle.contract g' = Script.caller /\
    oracle.config g' = Script.config (Some 420) (Some 7) /\
    5 <= rollup.epochStartBlockNumber u'.
Proof.
  apply (Loop_survives_errors
           [oracle.TimerTick; oracle.TimerTick; oracle.CtxDone]
           (Script.gpo (Some 420) (Some 7)) (Script.updater 100)
           (Script.start (Script.chain_at [7] true))).
  - exact Script_caller_answers.
  - exact Script_getLatest_answers.
  - exact Script_update_answers.
  - cbn. lia.
  - cbn. lia.
Defined.

(** A cancellation, a tick, a second cancellation. *)
Lemma Loop_second_cancellation_witness :
  oracle.Loop_for [oracle.CtxDone; oracle.TimerTick; oracle.CtxDone]
    (Script.gpo (Some 420) (Some 7), Script.updater 100)
    (Script.start (Script.chain_at [7] false))
  <> Value (Script.gpo (Some 420) (Some 7), Script.updater 100)
       (Script.start (Script.chain_at [] false)).
Proof.
  apply (Loop_second_cancellation
           [oracle.CtxDone; oracle.TimerTick; oracle.CtxDone]
           (Script.gpo (Some 420) (Some 7)) (Script.updater 100)
           (Script.start (Script.chain_at [7] false))).
  cbn. lia.
Defined.

(** A tick on a contract whose price read fails. *)
Lemma Loop_tick_outcomes_witness :
  let s := {| world := {| Script.heights := [7]; Script.owner := Ok 1007;
                          Script.onchain := Err "execution reverted";
                          Script.refuse := false; Script.written := [] |};
              logs := [] |} in
  oracle.Loop_iteration oracle.TimerTick
    (Script.gpo (Some 420) (Some 7), Script.updater 100) s
  = Value (Script.gpo (Some 420) (Some 7), Script.updater 100)
      (write_log LvlError "cannot get gas price" ["execution reverted"]
         (write_log LvlDebug "polling" [] s)).
Proof.
  cbv zeta.
  match goal with
  | |- oracle.Loop_iteration _ (?g, ?u) ?s = _ =>
      destruct (Loop_tick_outcomes g u s (write_log LvlDebug "polling" [] s))
        as [Hskip _]
  end.
  apply Hskip. reflexivity.
Defined.

(** An epoch of half a second: the tip is fetched, the wrapper is built, and
    the ticker panics. *)
Lemma Loop_setup_witness :
  oracle.Loop (ScriptLoop.gpo_with_epoch (Float64.decimal 5 1)) [oracle.TimerTick]
    (Script.start (Script.chain_at [3] false))
  = Panicked (Script.start (Script.chain_at [] false)).
Proof.
  destruct (Loop_setup (ScriptLoop.gpo_with_epoch (Float64.decimal 5 1))
              [oracle.TimerTick]
              (Script.start (Script.chain_at [3] false))
              (Script.start (Script.chain_at [] false)))
    as (_ & _ & Hpanic & _ & Hbelow & _).
  apply (Hpanic 3 Script.update).
  - reflexivity.
  - reflexivity.
  - rewrite (Hbelow (4503599627370496 # 9007199254740992)%Q).
    + lia.
    + reflexivity.
    + reflexivity.
    + reflexivity.
Defined.

(** Only the target rate is given: the change per epoch is missed first. *)
Lemma NewConfig_names_first_missing_witness :
  exists s1 : St Script.Chain,
    oracle.NewConfig (PrivateKey := Z) (Script.command_line ["target-gas-per-second"])
      (Script.start (Script.chain_at [] false))
    = Exited (write_log LvlCrit "Missing config option"
                ["max-percent-change-per-epoch"] s1) /\
    world s1 = Script.chain_at [] false.
Proof.
  apply (NewConfig_names_first_missing (PrivateKey := Z)
           (Script.command_line ["target-gas-per-second"])
           (Script.start (Script.chain_at [] false))
           flags.MaxPercentChangePerEpochFlag).
  reflexivity.
Defined.

(** The key [abc], with and without the prefix. *)
Lemma NewConfig_private_key_prefix_witness :
  oracle.NewConfig (PrivateKey := Z)
    (with_private_key (Script.command_line []) "0xabc")
    (Script.start (Script.chain_at [] false))
  = oracle.NewConfig
      (with_private_key (Script.command_line []) "abc")
      (Script.start (Script.chain_at [] false)).
Proof.
  apply (NewConfig_private_key_prefix (PrivateKey := Z)
           (Script.command_line []) "abc" (Script.start (Script.chain_at [] false))).
  reflexivity.
Defined.

(** The key [0x] has nothing after its prefix. *)
Lemma NewConfig_bad_private_key_witness :
  exists cfg : oracle.Config Z,
    oracle.NewConfig
      (with_private_key
         (Script.command_line
            [ "target-gas-per-second"; "max-percent-change-per-epoch";
              "average-block-gas-limit-per-epoch"; "epoch-length-seconds" ]) "0x")
      (Script.start (Script.chain_at [] false))
    = Value cfg (write_log LvlError "Option %q: %v" ["private-key"; "invalid length"]
                   (Script.start (Script.chain_at [] false))) /\
    oracle.privateKey cfg = None.
Proof.
  apply (NewConfig_bad_private_key
           (with_private_key
              (Script.command_line
                 [ "target-gas-per-second"; "max-percent-change-per-epoch";
                   "average-block-gas-limit-per-epoch"; "epoch-length-seconds" ]) "0x")
           (Script.start (Script.chain_at [] false)) "invalid length").
  - reflexivity.
  - reflexivity.
  - reflexivity.
Defined.

(** The same four flags, with other values behind the flags not given. *)
Lemma NewConfig_ignores_unset_flags_witness :
  let given := [ "target-gas-per-second"; "max-percent-change-per-epoch";
                 "average-block-gas-limit-per-epoch"; "epoch-length-seconds" ] in
  let ctx' :=
    {| oracle.GlobalIsSet := fun n => existsb (String.eqb n) given;
       oracle.GlobalString := fun n =>
         if existsb (String.eqb n) given then "0xabc" else "http://127.0.0.1:8545";
       oracle.GlobalUint64 := fun n =>
         if existsb (String.eqb n) given then 420 else 0;
       oracle.GlobalFloat64 := fun n =>
         if existsb (String.eqb n) given then Float64.of_uint64 7
         else Float64.of_uint64 11000000 |} in
  oracle.NewConfig (PrivateKey := Z) ctx' (Script.start (Script.chain_at [] false))
  = oracle.NewConfig (Script.command_line given)
      (Script.start (Script.chain_at [] false)).
Proof.
  cbv zeta.
  apply (NewConfig_ignores_unset_flags (PrivateKey := Z)).
  intros n. split; [reflexivity | ].
  cbn [Script.command_line oracle.GlobalIsSet oracle.GlobalString oracle.GlobalUint64
         oracle.GlobalFloat64].
  intros Hset. rewrite Hset. repeat split.
Defined.

(** A node that refuses twice, a configuration with key 7 and no chain
    id: the chain id 10 is the node's answer, in the oracle and in the
    configuration. *)
Lemma NewGasPriceOracle_result_witness :
  exists cfg' g s',
    oracle_new.NewGasPriceOracle 3 (Script.config None (Some 7)) (Node.start 2)
    = Value (Some (cfg', Ok g)) s' /\
    oracle.oracle_chainID g = Some 10 /\
    cfg' = oracle_new.set_chainID (Script.config None (Some 7)) 10.
Proof.
  eexists; eexists; eexists.
  split; [vm_compute; reflexivity | ].
  match goal with
  | |- oracle.oracle_chainID ?g = _ /\ ?cfg' = _ =>
      destruct (NewGasPriceOracle_result 3 (Script.config None (Some 7)) cfg' g
                  (Node.start 2)
                  {| world := {| Node.down := 0; Node.id := 10;
                                 Node.owner := Ok 1007; Node.price := Ok 10 |};
                     logs := [ {| lvl := LvlInfo; msg := "Starting gas price"; ctx := [] |};
                               {| lvl := LvlInfo; msg := "ChainID unset, fetching remote";
                                  ctx := [] |} ] |})
        as (client & contract & currentPrice & s1 & s2 & s3
            & Hdial & Hconnect & Hbind & Hprice & _ & _ & _ & _ & _ & _ & Hid)
  end.
  - vm_compute. reflexivity.
  - cbn [oracle.chainID Script.config] in Hid.
    destruct Hid as (chainID & Hanswer & Hg & Hcfg).
    assert (Hten : chainID = 10).
    { vm_compute in Hdial. injection Hdial as <- <-.
      vm_compute in Hconnect. injection Hconnect as <-.
      vm_compute in Hbind. injection Hbind as <-.
      vm_compute in Hprice. injection Hprice as <- <-.
      vm_compute in Hanswer. injection Hanswer as <-. reflexivity. }
    rewrite Hten in Hg, Hcfg. split; [exact Hg | exact Hcfg].
Defined.

(** The same oracle, started against a contract owned by [1007]: that is
    the address of key 7. *)
Lemma Start_after_NewGasPriceOracle_witness :
  exists cfg' g s',
    oracle_new.NewGasPriceOracle 3 (Script.config None (Some 7)) (Node.start 2)
    = Value (Some (cfg', Ok g)) s' /\
    oracle.Start g (Node.start 0)
    = Value (None, true) (write_log LvlInfo "Starting Gas Price Oracle" [] (Node.start 0)).
Proof.
  eexists; eexists; eexists.
  split; [vm_compute; reflexivity | ].
  match goal with
  | |- oracle.Start ?g _ = _ =>
      destruct (Start_after_NewGasPriceOracle 3 (Script.config None (Some 7))
                  (oracle.config g) g (Node.start 2)
                  {| world := {| Node.down := 0; Node.id := 10;
                                 Node.owner := Ok 1007; Node.price := Ok 10 |};
                     logs := [ {| lvl := LvlInfo; msg := "Starting gas price"; ctx := [] |};
                               {| lvl := LvlInfo; msg := "ChainID unset, fetching remote";
                                  ctx := [] |} ] |})
        as (key & Hkey & Hstart)
  end.
  - vm_compute. reflexivity.
  - inversion Hkey; subst key.
    apply (Hstart (Node.start 0)
             (write_log LvlInfo "Starting Gas Price Oracle" [] (Node.start 0)) 1007).
    reflexivity.
Defined.

(** A command line with the required flags, a node address and the key
    [0xabc], whose address is [1003], against a contract owned by [1003]. *)
Lemma Action_serves_only_the_owner_witness :
  let ctx := Script.command_line
               [ "ethereum-http-url"; "private-key";
                 "target-gas-per-second"; "max-percent-change-per-epoch";
                 "average-block-gas-limit-per-epoch"; "epoch-length-seconds" ] in
  let s := {| world := {| Node.down := 0; Node.id := 10;
                          Node.owner := Ok 1003; Node.price := Ok 10 |};
              logs := [] |} in
  exists gpo s',
    main.Action 1 [] ctx s = Value (Some (main.Waiting gpo)) s' /\
    oracle.privateKey (oracle.config gpo) = Some 3 /\
    exists s0, oracle.Owner (oracle.contract gpo) s0 = Value (Ok 1003) s'.
Proof.
  cbv zeta. eexists; eexists.
  split; [vm_compute; reflexivity | ].
  match goal with
  | |- oracle.privateKey (oracle.config ?gpo) = _ /\ (exists s0, _ = Value _ ?s') =>
      destruct (Action_serves_only_the_owner (PrivateKey := Z) 1 []
                  (Script.command_line
                     [ "ethereum-http-url"; "private-key";
                       "target-gas-per-second"; "max-percent-change-per-epoch";
                       "average-block-gas-limit-per-epoch"; "epoch-length-seconds" ])
                  gpo
                  {| world := {| Node.down := 0; Node.id := 10;
                                 Node.owner := Ok 1003; Node.price := Ok 10 |};
                     logs := [] |} s')
        as (_ & _ & _ & key & s0 & Hhex & Hkey & Hown)
  end.
  - vm_compute. reflexivity.
  - vm_compute in Hhex. inversion Hhex; subst key.
    split; [exact Hkey | ]. exists s0. exact Hown.
Defined.
